(** * Custom Checkov policies of mob-infra-cicd: a shallow embedding

    The seven [scan_resource_conf] methods of
    [policies/checkov/custom_policies.py] are embedded as functions from a
    configuration record to a result that is either a verdict or a raised
    Python exception.  The record is the Python [dict] handed over by the
    scanning host; its values are dynamically typed, so the embedding keeps
    a universe of Python values and gives every operation the checks use
    its behaviour on each kind of value, the exception it raises included.

    Conventions of the model:
    - strings are sequences of 8-bit characters and [lower] is ASCII
      lower-casing; none of the words the checks compare with contains a
      letter that a non-ASCII character lower-cases to;
    - integers are unbounded ([Z]); floating-point values are not part of
      the universe;
    - dictionaries are finite maps with string keys ([gmap string value]),
      so [d[0]] on a dictionary is a [KeyError]. *)

From Stdlib Require Import ZArith String Ascii List Bool.
From stdpp Require Import base option gmap strings list fin_maps.

Set Warnings "-register-all".

Local Open Scope string_scope.
Local Open Scope Z_scope.

(** ** Python values *)

(** The part of Python's value universe a parsed configuration holds:
    [None], booleans, integers, strings (here: byte strings), lists and
    string-keyed dictionaries. *)
Inductive value : Type :=
  | VNone
  | VBool (b : bool)
  | VInt (z : Z)
  | VStr (s : string)
  | VList (l : list value)
  | VDict (d : gmap string value).

(** The exceptions the checks can raise. *)
Inductive exn : Type :=
  | AttributeError
  | TypeError
  | IndexError
  | KeyError.

(** [CheckResult], as in the fallback class at the end of the module. *)
Inductive CheckResult : Type :=
  | PASSED
  | FAILED
  | SKIPPED
  | UNKNOWN.

(** A computation either returns or raises. *)
Inductive result (A : Type) : Type :=
  | Ret (a : A)
  | Raise (e : exn).
Arguments Ret {A} a.
Arguments Raise {A} e.

#[global] Instance result_ret : MRet result := fun _ a => Ret a.
#[global] Instance result_bind : MBind result := fun _ _ k m =>
  match m with
  | Ret a => k a
  | Raise e => Raise e
  end.

(** ** Python operations *)

(** [bool(v)]: the truth value Python's [if], [not] and [and] test. *)
Definition truthy (v : value) : bool :=
  match v with
  | VNone => false
  | VBool b => b
  | VInt z => negb (z =? 0)
  | VStr s => negb (String.eqb s "")
  | VList l => match l with [] => false | _ :: _ => true end
  | VDict d => match map_to_list d with [] => false | _ :: _ => true end
  end.

(** [isinstance(v, list)]. *)
Definition isinstance_list (v : value) : bool :=
  match v with
  | VList _ => true
  | _ => false
  end.

(** [v[0]].  A list or string yields its first item and raises
    [IndexError] when empty; a dictionary is asked for the key [0], which a
    string-keyed dictionary never holds; the other values are not
    subscriptable. *)
Definition subscript0 (v : value) : result value :=
  match v with
  | VList (x :: _) => Ret x
  | VList [] => Raise IndexError
  | VStr (String c _) => Ret (VStr (String c ""))
  | VStr EmptyString => Raise IndexError
  | VDict _ => Raise KeyError
  | VNone | VBool _ | VInt _ => Raise TypeError
  end.

(** [conf.get(k)] and [conf.get(k, dflt)] on the record itself. *)
Definition conf_get (conf : gmap string value) (k : string) : value :=
  default VNone (conf !! k).

Definition conf_get_default (conf : gmap string value) (k : string)
    (dflt : value) : value :=
  default dflt (conf !! k).

(** [v.get(k, dflt)] on a value: only dictionaries have [get]. *)
Definition dict_get (v : value) (k : string) (dflt : value) : result value :=
  match v with
  | VDict d => Ret (default dflt (d !! k))
  | _ => Raise AttributeError
  end.

(** ASCII lower-casing of one character and of a string. *)
Definition lower_ascii (c : ascii) : ascii :=
  let n := nat_of_ascii c in
  if ((65 <=? n) && (n <=? 90))%nat then ascii_of_nat (n + 32) else c.

Fixpoint lower (s : string) : string :=
  match s with
  | EmptyString => EmptyString
  | String c t => String (lower_ascii c) (lower t)
  end.

(** [needle in hay] on two strings: substring test. *)
Fixpoint contains (needle hay : string) : bool :=
  String.prefix needle hay ||
  match hay with
  | EmptyString => false
  | String _ t => contains needle t
  end.

(** [s.split(sep)] with a one-character separator. *)
Fixpoint split (sep : ascii) (s : string) : list string :=
  match s with
  | EmptyString => [EmptyString]
  | String c t =>
      if Ascii.eqb c sep then EmptyString :: split sep t
      else match split sep t with
           | h :: r => String c h :: r
           | [] => [String c EmptyString]
           end
  end.

(** [v.lower()], [v.startswith(p)], [v.split('-')]: string methods; any
    other value has no such attribute. *)
Definition str_lower (v : value) : result string :=
  match v with
  | VStr s => Ret (lower s)
  | _ => Raise AttributeError
  end.

Definition str_startswith (v : value) (p : string) : result bool :=
  match v with
  | VStr s => Ret (String.prefix p s)
  | _ => Raise AttributeError
  end.

Definition str_split (v : value) (sep : ascii) : result (list string) :=
  match v with
  | VStr s => Ret (split sep s)
  | _ => Raise AttributeError
  end.

(** [x == v] for a string [x]. *)
Definition eq_str (x : string) (v : value) : bool :=
  match v with
  | VStr s => String.eqb x s
  | _ => false
  end.

(** [x in v] for a string [x]: substring of a string, item of a list,
    key of a dictionary; [TypeError] on a value that is no container. *)
Definition str_in (x : string) (v : value) : result bool :=
  match v with
  | VStr s => Ret (contains x s)
  | VList l => Ret (existsb (eq_str x) l)
  | VDict d => Ret (bool_decide (is_Some (d !! x)))
  | VNone | VBool _ | VInt _ => Raise TypeError
  end.

(** [x in l] for a string and a list of string literals. *)
Definition in_strs (x : string) (l : list string) : bool :=
  existsb (String.eqb x) l.

(** [v >= n] for an integer literal [n]; [bool] is a subclass of [int]. *)
Definition ge_int (v : value) (n : Z) : result bool :=
  match v with
  | VInt z => Ret (n <=? z)
  | VBool b => Ret (n <=? (if b then 1 else 0))
  | VNone | VStr _ | VList _ | VDict _ => Raise TypeError
  end.

(** [any(f(x) for x in l)]: stops at the first true item, and an item that
    raises ends the iteration. *)
Fixpoint any (A : Type) (f : A -> result bool) (l : list A) : result bool :=
  match l with
  | [] => Ret false
  | x :: r => b ← f x; if (b : bool) then Ret true else any A f r
  end.
Arguments any {A} f l.

(** The idiom shared by checks 001, 003 and 004:
    [v = conf.get(key); if v and isinstance(v, list): v = v[0]]. *)
Definition first_if_list (v : value) : result value :=
  if truthy v && isinstance_list v then subscript0 v else Ret v.

(** The idiom of checks 002, 005 and 006: [tags[0] if tags else {}]. *)
Definition tags_dict_of (tags : value) : result value :=
  if truthy tags then subscript0 tags else Ret (VDict ∅).

(** ** The seven checks *)

(** CKV_EIGHTPOINT_001 *)
Module EightpointS3BucketNaming.

(** The arguments [__init__] hands to the base class. *)
Definition name : string :=
  "Ensure S3 buckets follow Eightpoint naming convention".
Definition id : string := "CKV_EIGHTPOINT_001".
Definition supported_resources : list string :=
    ["aws_s3_bucket"].
Definition categories : list string := ["CONVENTION"].

Definition valid_prefixes : list string :=
  ["ios-"; "android-"; "shared-"; "mob-"].
Definition valid_environments : list string :=
  ["-dev-"; "-prod-"; "-global-"].

Definition scan_resource_conf (conf : gmap string value)
    : result CheckResult :=
  bucket_name ← first_if_list (conf_get conf "bucket");
  if truthy bucket_name then
    has_valid_prefix ← any (str_startswith bucket_name) valid_prefixes;
    has_valid_env ←
      any (fun env => str_in env bucket_name) valid_environments;
    if has_valid_prefix && has_valid_env then Ret PASSED else Ret FAILED
  else Ret FAILED.

End EightpointS3BucketNaming.

(** CKV_EIGHTPOINT_002 *)
Module EightpointResourceTagging.

(** The arguments [__init__] hands to the base class. *)
Definition name : string :=
  "Ensure resources have required Eightpoint tags".
Definition id : string := "CKV_EIGHTPOINT_002".
Definition supported_resources : list string :=
    ["aws_instance"; "aws_s3_bucket"; "aws_rds_instance";
     "aws_rds_cluster"; "aws_eks_cluster"; "aws_elasticsearch_domain";
     "aws_elasticache_cluster"; "aws_lb"; "aws_nat_gateway"; "aws_vpc"].
Definition categories : list string := ["TAGGING"].

Definition required_tags : list string :=
  ["Team"; "Environment"; "Project"; "ManagedBy"].
Definition valid_teams : list string := ["ios"; "android"; "shared"].
Definition valid_environments : list string :=
  ["dev"; "prod"; "global"; "test"].

(** The [for required_tag in required_tags] loop: [false] stands for the
    early [return CheckResult.FAILED]. *)
Fixpoint has_required_tags (keys : list string) (tags_dict : value)
    : result bool :=
  match keys with
  | [] => Ret true
  | required_tag :: rest =>
      present ← str_in required_tag tags_dict;
      if (present : bool) then has_required_tags rest tags_dict
      else Ret false
  end.

Definition scan_resource_conf (conf : gmap string value)
    : result CheckResult :=
  let tags := conf_get conf "tags" in
  if negb (truthy tags) || negb (isinstance_list tags) then Ret FAILED
  else
    tags_dict ← tags_dict_of tags;
    all_present ← has_required_tags required_tags tags_dict;
    if negb all_present then Ret FAILED
    else
      team ← dict_get tags_dict "Team" (VStr "");
      team_value ← str_lower team;
      if negb (in_strs team_value valid_teams) then Ret FAILED
      else
        env ← dict_get tags_dict "Environment" (VStr "");
        env_value ← str_lower env;
        if negb (in_strs env_value valid_environments) then Ret FAILED
        else
          managed ← dict_get tags_dict "ManagedBy" (VStr "");
          managed_by ← str_lower managed;
          if negb (String.eqb managed_by "terraform") then Ret FAILED
          else Ret PASSED.

End EightpointResourceTagging.

(** CKV_EIGHTPOINT_003 *)
Module EightpointSecurityGroupNaming.

(** The arguments [__init__] hands to the base class. *)
Definition name : string :=
  "Ensure Security Groups follow Eightpoint naming convention".
Definition id : string := "CKV_EIGHTPOINT_003".
Definition supported_resources : list string :=
    ["aws_security_group"].
Definition categories : list string := ["CONVENTION"].

Definition scan_resource_conf (conf : gmap string value)
    : result CheckResult :=
  sg_name ← first_if_list (conf_get conf "name");
  if truthy sg_name then
    parts ← str_split sg_name "-"%char;
    if (length parts <? 4)%nat then Ret FAILED
    else if negb (in_strs (nth 0 parts "") ["ios"; "android"; "shared"])
    then Ret FAILED
    else if negb (in_strs (nth 1 parts "") ["dev"; "prod"; "global"])
    then Ret FAILED
    else Ret PASSED
  else Ret FAILED.

End EightpointSecurityGroupNaming.

(** CKV_EIGHTPOINT_004 *)
Module EightpointIAMRoleNaming.

(** The arguments [__init__] hands to the base class. *)
Definition name : string :=
  "Ensure IAM Roles follow Eightpoint naming convention".
Definition id : string := "CKV_EIGHTPOINT_004".
Definition supported_resources : list string :=
    ["aws_iam_role"].
Definition categories : list string := ["CONVENTION"].

Definition scan_resource_conf (conf : gmap string value)
    : result CheckResult :=
  role_name ← first_if_list (conf_get conf "name");
  if truthy role_name then
    parts ← str_split role_name "-"%char;
    if (length parts <? 4)%nat then Ret FAILED
    else if negb (in_strs (lower (nth 0 parts ""))
                          ["ios"; "android"; "shared"])
    then Ret FAILED
    else if negb (in_strs (lower (nth 1 parts ""))
                          ["dev"; "prod"; "global"])
    then Ret FAILED
    else Ret PASSED
  else Ret FAILED.

End EightpointIAMRoleNaming.

(** CKV_EIGHTPOINT_005 *)
Module EightpointKMSKeyRotation.

(** The arguments [__init__] hands to the base class. *)
Definition name : string :=
  "Ensure KMS keys have automatic rotation enabled for production".
Definition id : string := "CKV_EIGHTPOINT_005".
Definition supported_resources : list string :=
    ["aws_kms_key"].
Definition categories : list string := ["ENCRYPTION"].

(** [conf.get('description', [''])[0] if conf.get('description') else ''] *)
Definition description_of (conf : gmap string value) : result value :=
  if truthy (conf_get conf "description")
  then subscript0 (conf_get_default conf "description" (VList [VStr ""]))
  else Ret (VStr "").

(** The [is_prod] expression; [or] evaluates its right operand only when
    the left one is false. *)
Definition is_prod (tags_dict description : value) : result bool :=
  env ← dict_get tags_dict "Environment" (VStr "");
  env_value ← str_lower env;
  if String.eqb env_value "prod" then Ret true
  else
    d1 ← str_lower description;
    if contains "prod" d1 then Ret true
    else
      d2 ← str_lower description;
      Ret (contains "production" d2).

Definition scan_resource_conf (conf : gmap string value)
    : result CheckResult :=
  let tags := conf_get_default conf "tags" (VList [VDict ∅]) in
  tags_dict ← tags_dict_of tags;
  description ← description_of conf;
  prod ← is_prod tags_dict description;
  if (prod : bool) then
    let rotation_enabled := conf_get conf "enable_key_rotation" in
    if truthy rotation_enabled && isinstance_list rotation_enabled then
      r0 ← subscript0 rotation_enabled;
      if truthy r0 then Ret PASSED else Ret FAILED
    else Ret FAILED
  else Ret PASSED.

End EightpointKMSKeyRotation.

(** CKV_EIGHTPOINT_006 *)
Module EightpointRDSBackupRetention.

(** The arguments [__init__] hands to the base class. *)
Definition name : string :=
  "Ensure RDS instances have appropriate backup retention periods".
Definition id : string := "CKV_EIGHTPOINT_006".
Definition supported_resources : list string :=
    ["aws_db_instance"; "aws_rds_cluster"].
Definition categories : list string := ["BACKUP"].

Definition scan_resource_conf (conf : gmap string value)
    : result CheckResult :=
  let tags := conf_get_default conf "tags" (VList [VDict ∅]) in
  tags_dict ← tags_dict_of tags;
  env ← dict_get tags_dict "Environment" (VStr "");
  environment ← str_lower env;
  let backup_retention := conf_get conf "backup_retention_period" in
  if truthy backup_retention && isinstance_list backup_retention then
    retention_days ← subscript0 backup_retention;
    if String.eqb environment "prod" || String.eqb environment "production"
    then
      ok ← ge_int retention_days 7;
      if (ok : bool) then Ret PASSED else Ret FAILED
    else
      ok ← ge_int retention_days 1;
      if (ok : bool) then Ret PASSED else Ret FAILED
  else Ret FAILED.

End EightpointRDSBackupRetention.

(** CKV_EIGHTPOINT_007 *)
Module EightpointEKSEndpointAccess.

(** The arguments [__init__] hands to the base class. *)
Definition name : string :=
  "Ensure EKS clusters have secure endpoint access configuration".
Definition id : string := "CKV_EIGHTPOINT_007".
Definition supported_resources : list string :=
    ["aws_eks_cluster"].
Definition categories : list string := ["NETWORKING"].

Definition scan_resource_conf (conf : gmap string value)
    : result CheckResult :=
  let vpc_config := conf_get conf "vpc_config" in
  if negb (truthy vpc_config) || negb (isinstance_list vpc_config)
  then Ret FAILED
  else
    vpc_config ← subscript0 vpc_config;
    private ←
      dict_get vpc_config "endpoint_private_access" (VList [VBool false]);
    private_access ← subscript0 private;
    if negb (truthy private_access) then Ret FAILED
    else
      public ←
        dict_get vpc_config "endpoint_public_access" (VList [VBool true]);
      public_access ← subscript0 public;
      if truthy public_access then
        public_cidrs ← dict_get vpc_config "public_access_cidrs" (VList []);
        if negb (truthy public_cidrs) then Ret FAILED
        else
          open ← str_in "0.0.0.0/0" public_cidrs;
          if (open : bool) then Ret FAILED else Ret PASSED
      else Ret PASSED.

End EightpointEKSEndpointAccess.

(** The check set, indexed by the checks' identifiers. *)
Inductive check_id : Type :=
  | CKV_EIGHTPOINT_001
  | CKV_EIGHTPOINT_002
  | CKV_EIGHTPOINT_003
  | CKV_EIGHTPOINT_004
  | CKV_EIGHTPOINT_005
  | CKV_EIGHTPOINT_006
  | CKV_EIGHTPOINT_007.

Definition scan (c : check_id) (conf : gmap string value)
    : result CheckResult :=
  match c with
  | CKV_EIGHTPOINT_001 => EightpointS3BucketNaming.scan_resource_conf conf
  | CKV_EIGHTPOINT_002 => EightpointResourceTagging.scan_resource_conf conf
  | CKV_EIGHTPOINT_003 => EightpointSecurityGroupNaming.scan_resource_conf conf
  | CKV_EIGHTPOINT_004 => EightpointIAMRoleNaming.scan_resource_conf conf
  | CKV_EIGHTPOINT_005 => EightpointKMSKeyRotation.scan_resource_conf conf
  | CKV_EIGHTPOINT_006 => EightpointRDSBackupRetention.scan_resource_conf conf
  | CKV_EIGHTPOINT_007 => EightpointEKSEndpointAccess.scan_resource_conf conf
  end.

(** The identifier and the resource kinds each check registers with. *)
Definition id_of (c : check_id) : string :=
  match c with
  | CKV_EIGHTPOINT_001 => EightpointS3BucketNaming.id
  | CKV_EIGHTPOINT_002 => EightpointResourceTagging.id
  | CKV_EIGHTPOINT_003 => EightpointSecurityGroupNaming.id
  | CKV_EIGHTPOINT_004 => EightpointIAMRoleNaming.id
  | CKV_EIGHTPOINT_005 => EightpointKMSKeyRotation.id
  | CKV_EIGHTPOINT_006 => EightpointRDSBackupRetention.id
  | CKV_EIGHTPOINT_007 => EightpointEKSEndpointAccess.id
  end.

Definition supported_resources_of (c : check_id) : list string :=
  match c with
  | CKV_EIGHTPOINT_001 => EightpointS3BucketNaming.supported_resources
  | CKV_EIGHTPOINT_002 => EightpointResourceTagging.supported_resources
  | CKV_EIGHTPOINT_003 => EightpointSecurityGroupNaming.supported_resources
  | CKV_EIGHTPOINT_004 => EightpointIAMRoleNaming.supported_resources
  | CKV_EIGHTPOINT_005 => EightpointKMSKeyRotation.supported_resources
  | CKV_EIGHTPOINT_006 => EightpointRDSBackupRetention.supported_resources
  | CKV_EIGHTPOINT_007 => EightpointEKSEndpointAccess.supported_resources
  end.

(** The check is among those registered for a resource kind. *)
Definition applies_to (c : check_id) (kind : string) : bool :=
  in_strs kind (supported_resources_of c).

(** The keys each [scan_resource_conf] reads from the record with
    [conf.get]. *)
Definition examined_attributes (c : check_id) : list string :=
  match c with
  | CKV_EIGHTPOINT_001 => ["bucket"]
  | CKV_EIGHTPOINT_002 => ["tags"]
  | CKV_EIGHTPOINT_003 => ["name"]
  | CKV_EIGHTPOINT_004 => ["name"]
  | CKV_EIGHTPOINT_005 => ["tags"; "description"; "enable_key_rotation"]
  | CKV_EIGHTPOINT_006 => ["tags"; "backup_retention_period"]
  | CKV_EIGHTPOINT_007 => ["vpc_config"]
  end.


(** ** Building records *)

(** A record from a list of attribute bindings, and a tag mapping from a
    list of string pairs. *)
Definition record (l : list (string * value)) : gmap string value :=
  list_to_map l.

Definition tag_map (l : list (string * string)) : value :=
  VDict (list_to_map (map (fun kv => (fst kv, VStr (snd kv))) l)).

(** ** The data model of the specification *)

(** How a record holds an attribute: not at all (key missing, [None], or an
    empty sequence), wrapped as the first element of a sequence, or as a
    bare value. *)
Inductive attr : Type :=
  | Absent
  | Wrapped (v : value)
  | Bare (v : value).

Definition attribute (conf : gmap string value) (key : string) : attr :=
  match conf !! key with
  | None | Some VNone | Some (VList []) => Absent
  | Some (VList (x :: _)) => Wrapped x
  | Some v => Bare v
  end.

(** The accessor the specification asks for: [get(record, key)] unwraps one
    level of sequence-wrapping and is absent if the key is missing or the
    sequence is empty. *)
Definition spec_get (conf : gmap string value) (key : string) : option value :=
  match attribute conf key with
  | Absent => None
  | Wrapped v | Bare v => Some v
  end.

(** The lower-cased [Environment] tag of a record whose [tags] attribute is
    absent or sequence-wrapped: empty when the tags or the tag are missing;
    undefined when the record is not of this shape. *)
Definition environment_tag (conf : gmap string value) : option string :=
  match attribute conf "tags" with
  | Absent => Some ""
  | Wrapped (VDict d) =>
      match d !! "Environment" with
      | None => Some ""
      | Some (VStr s) => Some (lower s)
      | Some _ => None
      end
  | _ => None
  end.

(** The description of a record whose [description] attribute is absent or a
    sequence-wrapped string. *)
Definition description_text (conf : gmap string value) : option string :=
  match attribute conf "description" with
  | Absent => Some ""
  | Wrapped (VStr s) => Some s
  | _ => None
  end.

(** A sequence-wrapped boolean attribute of a nested block, with the value
    it takes when the key is missing. *)
Definition block_flag (d : gmap string value) (key : string) (dflt : bool)
    : option bool :=
  match d !! key with
  | None => Some dflt
  | Some (VList (VBool b :: _)) => Some b
  | Some _ => None
  end.

(** The accessor of the specification inside a nested block: one level of
    sequence-wrapping is unwrapped, and a missing key, [None] or an empty
    sequence is absent. *)
Definition block_get (d : gmap string value) (key : string) : option value :=
  match d !! key with
  | None | Some VNone | Some (VList []) => None
  | Some (VList (x :: _)) => Some x
  | Some v => Some v
  end.

(** The rule of check 007 in the words of the specification, with every
    attribute, the CIDR list included, read through the unwrapping
    accessor: FAILED without vpc_config; private access false when absent,
    public access true when absent; FAILED if private access is false;
    with public access true, FAILED if the CIDR list is absent, empty or
    holds "0.0.0.0/0"; PASSED otherwise. *)
Definition eks_endpoint_spec (conf : gmap string value) : CheckResult :=
  match spec_get conf "vpc_config" with
  | Some (VDict d) =>
      let private_access :=
        match block_get d "endpoint_private_access" with
        | Some v => truthy v
        | None => false
        end in
      let public_access :=
        match block_get d "endpoint_public_access" with
        | Some v => truthy v
        | None => true
        end in
      if negb private_access then FAILED
      else if public_access then
        match block_get d "public_access_cidrs" with
        | Some (VList cidrs) =>
            if Nat.eqb (length cidrs) 0 || existsb (eq_str "0.0.0.0/0") cidrs
            then FAILED else PASSED
        | Some _ | None => FAILED
        end
      else PASSED
  | _ => FAILED
  end.

(** The structural naming rule of checks 003 and 004 in the words of the
    specification, over a normalisation [norm] of the parts compared. *)
Definition naming_rule (norm : string -> string) (name : string)
    : CheckResult :=
  let parts := split "-" name in
  if (length parts <? 4)%nat then FAILED
  else if in_strs (norm (nth 0 parts "")) ["ios"; "android"; "shared"]
          && in_strs (norm (nth 1 parts "")) ["dev"; "prod"; "global"]
  then PASSED else FAILED.

(** ** Records on which no check raises *)

(** A name attribute ([bucket], [name], [description]): absent, or a
    string, bare or first in a sequence. *)
Definition name_shape (a : attr) : bool :=
  match a with
  | Absent | Wrapped (VStr _) | Bare (VStr _) => true
  | _ => false
  end.

Definition str_or_missing (o : option value) : bool :=
  match o with
  | None | Some (VStr _) => true
  | Some _ => false
  end.

(** [tags]: absent, or a sequence whose first element is a mapping whose
    [Team], [Environment] and [ManagedBy] values, where present, are
    strings. *)
Definition tags_shape (a : attr) : bool :=
  match a with
  | Absent => true
  | Wrapped (VDict d) =>
      str_or_missing (d !! "Team") && str_or_missing (d !! "Environment")
      && str_or_missing (d !! "ManagedBy")
  | _ => false
  end.

(** [backup_retention_period]: absent, or an integer, bare or first in a
    sequence. *)
Definition retention_shape (a : attr) : bool :=
  match a with
  | Absent | Wrapped (VInt _) | Bare (VInt _) => true
  | _ => false
  end.

Definition nonempty_list_or_missing (o : option value) : bool :=
  match o with
  | None | Some (VList (_ :: _)) => true
  | Some _ => false
  end.

Definition list_or_missing (o : option value) : bool :=
  match o with
  | None | Some (VList _) => true
  | Some _ => false
  end.

(** [vpc_config]: absent, or a sequence whose first element is a mapping
    whose two endpoint flags, where present, are non-empty sequences and
    whose [public_access_cidrs], where present, is a sequence. *)
Definition vpc_shape (a : attr) : bool :=
  match a with
  | Absent => true
  | Wrapped (VDict d) =>
      nonempty_list_or_missing (d !! "endpoint_private_access")
      && nonempty_list_or_missing (d !! "endpoint_public_access")
      && list_or_missing (d !! "public_access_cidrs")
  | _ => false
  end.

Definition well_formed (conf : gmap string value) : bool :=
  name_shape (attribute conf "bucket")
  && name_shape (attribute conf "name")
  && tags_shape (attribute conf "tags")
  && name_shape (attribute conf "description")
  && retention_shape (attribute conf "backup_retention_period")
  && vpc_shape (attribute conf "vpc_config").

(** A check that returns, and returns one of the two verdicts of check
    logic. *)
Definition returns_verdict (r : result CheckResult) : Prop :=
  r = Ret PASSED \/ r = Ret FAILED.

(** ** The examples of the specification, run on the embedding *)

Module Examples.

Example s3_pass :
  scan CKV_EIGHTPOINT_001
    (record [("bucket", VList [VStr "ios-dev-terraform-state"])])
  = Ret PASSED.
Proof. vm_compute. reflexivity. Qed.

Example s3_no_env :
  scan CKV_EIGHTPOINT_001
    (record [("bucket", VList [VStr "ios-terraform-state"])])
  = Ret FAILED.
Proof. vm_compute. reflexivity. Qed.

Example s3_none :
  scan CKV_EIGHTPOINT_001 (record [("bucket", VNone)]) = Ret FAILED.
Proof. vm_compute. reflexivity. Qed.

Example tagging_pass :
  scan CKV_EIGHTPOINT_002
    (record [("tags", VList [tag_map [("Team", "IOS"); ("Environment", "dev");
                                      ("Project", "x");
                                      ("ManagedBy", "Terraform")]])])
  = Ret PASSED.
Proof. vm_compute. reflexivity. Qed.

Example tagging_no_project :
  scan CKV_EIGHTPOINT_002
    (record [("tags", VList [tag_map [("Team", "ios"); ("Environment", "dev");
                                      ("ManagedBy", "terraform")]])])
  = Ret FAILED.
Proof. vm_compute. reflexivity. Qed.

Example tagging_web :
  scan CKV_EIGHTPOINT_002
    (record [("tags", VList [tag_map [("Team", "web"); ("Environment", "dev");
                                      ("Project", "x");
                                      ("ManagedBy", "terraform")]])])
  = Ret FAILED.
Proof. vm_compute. reflexivity. Qed.

Example sg_pass :
  scan CKV_EIGHTPOINT_003 (record [("name", VList [VStr "ios-dev-eks-cluster"])])
  = Ret PASSED.
Proof. vm_compute. reflexivity. Qed.

Example sg_two_parts :
  scan CKV_EIGHTPOINT_003 (record [("name", VList [VStr "ios-dev"])])
  = Ret FAILED.
Proof. vm_compute. reflexivity. Qed.

Example role_pass :
  scan CKV_EIGHTPOINT_004
    (record [("name", VList [VStr "iOS-Dev-EKS-NodeGroup"])])
  = Ret PASSED.
Proof. vm_compute. reflexivity. Qed.

Example role_pass_mixed :
  scan CKV_EIGHTPOINT_004
    (record [("name", VList [VStr "android-Prod-Lambda-Execution"])])
  = Ret PASSED.
Proof. vm_compute. reflexivity. Qed.

Example kms_nonprod :
  scan CKV_EIGHTPOINT_005
    (record [("tags", VList [tag_map [("Environment", "dev")]])])
  = Ret PASSED.
Proof. vm_compute. reflexivity. Qed.

Example kms_prod_rotation :
  scan CKV_EIGHTPOINT_005
    (record [("tags", VList [tag_map [("Environment", "prod")]]);
             ("enable_key_rotation", VList [VBool true])])
  = Ret PASSED.
Proof. vm_compute. reflexivity. Qed.

Example kms_prod_no_rotation :
  scan CKV_EIGHTPOINT_005
    (record [("tags", VList [tag_map [("Environment", "prod")]])])
  = Ret FAILED.
Proof. vm_compute. reflexivity. Qed.

Example kms_description :
  scan CKV_EIGHTPOINT_005
    (record [("description", VList [VStr "production key"])])
  = Ret FAILED.
Proof. vm_compute. reflexivity. Qed.

Example rds_prod_7 :
  scan CKV_EIGHTPOINT_006
    (record [("tags", VList [tag_map [("Environment", "prod")]]);
             ("backup_retention_period", VList [VInt 7])])
  = Ret PASSED.
Proof. vm_compute. reflexivity. Qed.

Example rds_prod_6 :
  scan CKV_EIGHTPOINT_006
    (record [("tags", VList [tag_map [("Environment", "prod")]]);
             ("backup_retention_period", VList [VInt 6])])
  = Ret FAILED.
Proof. vm_compute. reflexivity. Qed.

Example rds_dev_1 :
  scan CKV_EIGHTPOINT_006
    (record [("tags", VList [tag_map [("Environment", "dev")]]);
             ("backup_retention_period", VList [VInt 1])])
  = Ret PASSED.
Proof. vm_compute. reflexivity. Qed.

Example eks_private_only :
  scan CKV_EIGHTPOINT_007
    (record [("vpc_config",
              VList [VDict (list_to_map
                [("endpoint_private_access", VList [VBool true]);
                 ("endpoint_public_access", VList [VBool false])])])])
  = Ret PASSED.
Proof. vm_compute. reflexivity. Qed.

Example eks_open_cidr :
  scan CKV_EIGHTPOINT_007
    (record [("vpc_config",
              VList [VDict (list_to_map
                [("endpoint_private_access", VList [VBool true]);
                 ("endpoint_public_access", VList [VBool true]);
                 ("public_access_cidrs", VList [VStr "0.0.0.0/0"])])])])
  = Ret FAILED.
Proof. vm_compute. reflexivity. Qed.

Example eks_restricted_cidr :
  scan CKV_EIGHTPOINT_007
    (record [("vpc_config",
              VList [VDict (list_to_map
                [("endpoint_private_access", VList [VBool true]);
                 ("endpoint_public_access", VList [VBool true]);
                 ("public_access_cidrs", VList [VStr "10.0.0.0/8"])])])])
  = Ret PASSED.
Proof. vm_compute. reflexivity. Qed.

End Examples.


(** ** Basic facts about the Python operations *)

Section PythonFacts.

Lemma any_ret (A : Type) (f : A -> bool) (l : list A) :
  any (fun x => Ret (f x)) l = Ret (existsb f l).
Proof.
  induction l as [|x l IH]; [reflexivity|].
  cbn. destruct (f x); [reflexivity|exact IH].
Qed.

Lemma any_startswith (s : string) (l : list string) :
  any (str_startswith (VStr s)) l = Ret (existsb (fun p => String.prefix p s) l).
Proof. apply (any_ret _ (fun p => String.prefix p s)). Qed.

Lemma any_str_in (s : string) (l : list string) :
  any (fun e => str_in e (VStr s)) l = Ret (existsb (fun e => contains e s) l).
Proof. apply (any_ret _ (fun e => contains e s)). Qed.

(** A truthy list is not empty, so unwrapping it cannot raise. *)
Lemma first_if_list_cons (x : value) (l : list value) :
  first_if_list (VList (x :: l)) = Ret x.
Proof. reflexivity. Qed.

Lemma first_if_list_not_list (v : value) :
  isinstance_list v = false -> first_if_list v = Ret v.
Proof.
  intros H. unfold first_if_list. rewrite H, andb_false_r. reflexivity.
Qed.

Lemma first_if_list_wrap (v : value) :
  isinstance_list v = false -> first_if_list (VList [v]) = first_if_list v.
Proof. intros H. rewrite (first_if_list_not_list v H). reflexivity. Qed.

Lemma split_nonempty (sep : ascii) (s : string) : split sep s <> [].
Proof.
  destruct s as [|c t]; cbn; [discriminate|].
  destruct (Ascii.eqb c sep); [discriminate|].
  destruct (split sep t); discriminate.
Qed.

Lemma lower_fixes_team (p : string) :
  in_strs p ["ios"; "android"; "shared"] = true ->
  in_strs (lower p) ["ios"; "android"; "shared"] = true.
Proof.
  unfold in_strs. intros H. cbn [existsb] in H.
  rewrite !orb_true_iff in H.
  destruct H as [H|[H|[H|H]]]; try discriminate;
    apply String.eqb_eq in H; subst p; reflexivity.
Qed.

Lemma lower_fixes_environment (p : string) :
  in_strs p ["dev"; "prod"; "global"] = true ->
  in_strs (lower p) ["dev"; "prod"; "global"] = true.
Proof.
  unfold in_strs. intros H. cbn [existsb] in H.
  rewrite !orb_true_iff in H.
  destruct H as [H|[H|[H|H]]]; try discriminate;
    apply String.eqb_eq in H; subst p; reflexivity.
Qed.

End PythonFacts.

(** Reading an attribute back from how the record holds it. *)
Lemma attribute_absent (conf : gmap string value) (key : string) :
  attribute conf key = Absent ->
  conf !! key = None \/ conf !! key = Some VNone
  \/ conf !! key = Some (VList []).
Proof.
  unfold attribute.
  destruct (conf !! key) as [[| | | |[|x l]|]|]; cbn; intros H;
    try discriminate; auto.
Qed.

Lemma attribute_wrapped (conf : gmap string value) (key : string) (x : value) :
  attribute conf key = Wrapped x ->
  exists l, conf !! key = Some (VList (x :: l)).
Proof.
  unfold attribute.
  destruct (conf !! key) as [[| | | |[|y l]|]|]; cbn; intros H;
    try discriminate.
  injection H as ->. eauto.
Qed.

Lemma attribute_bare (conf : gmap string value) (key : string) (v : value) :
  attribute conf key = Bare v ->
  conf !! key = Some v /\ isinstance_list v = false /\ v <> VNone.
Proof.
  unfold attribute.
  destruct (conf !! key) as [[| | | |[|y l]|]|]; cbn; intros H;
    try discriminate; injection H as <-; auto.
Qed.

Lemma spec_get_str (conf : gmap string value) (key s : string) :
  spec_get conf key = Some (VStr s) ->
  first_if_list (conf_get conf key) = Ret (VStr s).
Proof.
  unfold spec_get. destruct (attribute conf key) as [|v|v] eqn:E;
    intros H; try discriminate; injection H as ->.
  - apply attribute_wrapped in E as [l E]. unfold conf_get. rewrite E.
    reflexivity.
  - apply attribute_bare in E as (E & _ & _). unfold conf_get. rewrite E.
    apply first_if_list_not_list. reflexivity.
Qed.

Lemma spec_get_none (conf : gmap string value) (key : string) :
  spec_get conf key = None ->
  exists v, first_if_list (conf_get conf key) = Ret v /\ truthy v = false.
Proof.
  unfold spec_get. destruct (attribute conf key) as [|v|v] eqn:E;
    intros H; try discriminate.
  unfold conf_get.
  apply attribute_absent in E as [E|[E|E]]; rewrite E; eexists; split;
    reflexivity.
Qed.

(** ** Check 001: S3 bucket naming *)

(** Claim C7.  Check 001 returns FAILED if the bucket attribute is absent;
    otherwise, for the unwrapped bucket name, it returns PASSED exactly when
    the name starts with one of the prefixes ios-, android-, shared-, mob-
    and contains one of -dev-, -prod-, -global-, and FAILED otherwise. *)
Theorem s3_bucket_naming_rule (conf : gmap string value) :
  (spec_get conf "bucket" = None ->
   scan CKV_EIGHTPOINT_001 conf = Ret FAILED)
  /\ (forall name : string,
        spec_get conf "bucket" = Some (VStr name) ->
        scan CKV_EIGHTPOINT_001 conf =
        Ret (if existsb (fun p => String.prefix p name)
                        ["ios-"; "android-"; "shared-"; "mob-"]
                && existsb (fun e => contains e name)
                           ["-dev-"; "-prod-"; "-global-"]
             then PASSED else FAILED)).
Proof.
  split.
  - intros H. apply spec_get_none in H as (v & Hv & Hf).
    cbn. unfold EightpointS3BucketNaming.scan_resource_conf.
    rewrite Hv. cbn. rewrite Hf. reflexivity.
  - intros name H. apply spec_get_str in H.
    cbn. unfold EightpointS3BucketNaming.scan_resource_conf.
    rewrite H. cbn [mbind result_bind].
    destruct name as [|c t]; [reflexivity|].
    change (truthy (VStr (String c t))) with true. cbv iota.
    rewrite any_startswith, any_str_in. cbn [mbind result_bind].
    unfold EightpointS3BucketNaming.valid_prefixes,
      EightpointS3BucketNaming.valid_environments.
    cbn [existsb].
    match goal with |- (if ?b then _ else _) = _ => destruct b end;
      reflexivity.
Qed.

Lemma s3_bucket_naming_rule_witness :
  spec_get (record [("bucket", VStr "mob-x-prod-y")]) "bucket"
  = Some (VStr "mob-x-prod-y")
  /\ scan CKV_EIGHTPOINT_001 (record [("bucket", VStr "mob-x-prod-y")])
     = Ret PASSED.
Proof.
  split; [vm_compute; reflexivity|].
  apply (proj2 (s3_bucket_naming_rule
                  (record [("bucket", VStr "mob-x-prod-y")])) "mob-x-prod-y").
  vm_compute. reflexivity.
Defined.


(** ** Checks 003 and 004: security-group and IAM-role naming *)

Lemma security_group_on_name (conf : gmap string value) (name : string) :
  first_if_list (conf_get conf "name") = Ret (VStr name) ->
  scan CKV_EIGHTPOINT_003 conf = Ret (naming_rule (fun p => p) name).
Proof.
  intros H. cbn. unfold EightpointSecurityGroupNaming.scan_resource_conf.
  rewrite H. cbn [mbind result_bind].
  destruct name as [|c t]; [reflexivity|].
  change (truthy (VStr (String c t))) with true.
  cbn [str_split mbind result_bind]. unfold naming_rule.
  destruct (length (split "-" (String c t)) <? 4)%nat; [reflexivity|].
  destruct (in_strs (nth 0 (split "-" (String c t)) "") _); [|reflexivity].
  destruct (in_strs (nth 1 (split "-" (String c t)) "") _); reflexivity.
Qed.

Lemma iam_role_on_name (conf : gmap string value) (name : string) :
  first_if_list (conf_get conf "name") = Ret (VStr name) ->
  scan CKV_EIGHTPOINT_004 conf = Ret (naming_rule lower name).
Proof.
  intros H. cbn. unfold EightpointIAMRoleNaming.scan_resource_conf.
  rewrite H. cbn [mbind result_bind].
  destruct name as [|c t]; [reflexivity|].
  change (truthy (VStr (String c t))) with true.
  cbn [str_split mbind result_bind]. unfold naming_rule.
  destruct (length (split "-" (String c t)) <? 4)%nat; [reflexivity|].
  destruct (in_strs (lower (nth 0 (split "-" (String c t)) "")) _);
    [|reflexivity].
  destruct (in_strs (lower (nth 1 (split "-" (String c t)) "")) _);
    reflexivity.
Qed.

Lemma naming_rule_lower (name : string) :
  naming_rule (fun p => p) name = PASSED -> naming_rule lower name = PASSED.
Proof.
  unfold naming_rule.
  destruct (length (split "-" name) <? 4)%nat; [discriminate|].
  destruct (in_strs (nth 0 (split "-" name) "") _) eqn:E0; [|discriminate].
  destruct (in_strs (nth 1 (split "-" name) "") _) eqn:E1; [|discriminate].
  intros _. rewrite (lower_fixes_team _ E0), (lower_fixes_environment _ E1).
  reflexivity.
Qed.

(** Claim C8.  Checks 003 and 004 apply one structural rule to the name
    (split on "-", FAILED under 4 parts, part 0 a team, part 1 an
    environment, nothing examined past index 1); 003 compares the parts as
    they are and 004 after lower-casing.  Hence a name that passes 003
    passes 004, while "IOS-dev-eks-cluster" fails 003 and passes 004. *)
Theorem naming_003_refines_004 :
  (forall (conf : gmap string value) (name : string),
      spec_get conf "name" = Some (VStr name) ->
      scan CKV_EIGHTPOINT_003 conf = Ret (naming_rule (fun p => p) name)
      /\ scan CKV_EIGHTPOINT_004 conf = Ret (naming_rule lower name))
  /\ (forall (norm : string -> string) (n1 n2 : string),
         (4 <= length (split "-" n1))%nat ->
         (4 <= length (split "-" n2))%nat ->
         nth 0 (split "-" n1) "" = nth 0 (split "-" n2) "" ->
         nth 1 (split "-" n1) "" = nth 1 (split "-" n2) "" ->
         naming_rule norm n1 = naming_rule norm n2)
  /\ (forall (conf1 conf2 : gmap string value) (name : string),
         spec_get conf1 "name" = Some (VStr name) ->
         spec_get conf2 "name" = Some (VStr name) ->
         scan CKV_EIGHTPOINT_003 conf1 = Ret PASSED ->
         scan CKV_EIGHTPOINT_004 conf2 = Ret PASSED)
  /\ scan CKV_EIGHTPOINT_003
       (record [("name", VList [VStr "IOS-dev-eks-cluster"])]) = Ret FAILED
  /\ scan CKV_EIGHTPOINT_004
       (record [("name", VList [VStr "IOS-dev-eks-cluster"])]) = Ret PASSED.
Proof.
  split; [|split; [|split; [|split]]].
  - intros conf name H. apply spec_get_str in H.
    split; [apply security_group_on_name|apply iam_role_on_name]; exact H.
  - intros norm n1 n2 L1 L2 E0 E1. unfold naming_rule.
    apply Nat.ltb_ge in L1, L2. rewrite L1, L2, E0, E1. reflexivity.
  - intros conf1 conf2 name H1 H2 P3.
    apply spec_get_str in H1, H2.
    rewrite (security_group_on_name _ _ H1) in P3.
    rewrite (iam_role_on_name _ _ H2).
    f_equal. apply naming_rule_lower. congruence.
  - vm_compute. reflexivity.
  - vm_compute. reflexivity.
Qed.

Lemma naming_003_refines_004_witness :
  scan CKV_EIGHTPOINT_004 (record [("name", VStr "ios-dev-eks-cluster")])
  = Ret PASSED.
Proof.
  apply (proj1 (proj2 (proj2 naming_003_refines_004))
           (record [("name", VList [VStr "ios-dev-eks-cluster"])])
           (record [("name", VStr "ios-dev-eks-cluster")])
           "ios-dev-eks-cluster");
    vm_compute; reflexivity.
Defined.

(** ** Empty names *)

(** Claim C10, as the code has it.  For checks 001, 003 and 004 an examined
    attribute holding the empty string, bare or wrapped as a one-element
    sequence, yields FAILED through the branch of an absent name, as a
    missing attribute does; the one-element sequence is unwrapped to the
    empty string first, and it is the empty string that is then treated as
    absent. *)
Theorem empty_name_fails (conf : gmap string value) (v : value) :
  v = VStr "" \/ v = VList [VStr ""] ->
  first_if_list v = Ret (VStr "")
  /\ truthy (VStr "") = false
  /\ scan CKV_EIGHTPOINT_001 (<["bucket" := v]> conf) = Ret FAILED
  /\ scan CKV_EIGHTPOINT_001 (delete "bucket" conf) = Ret FAILED
  /\ scan CKV_EIGHTPOINT_003 (<["name" := v]> conf) = Ret FAILED
  /\ scan CKV_EIGHTPOINT_003 (delete "name" conf) = Ret FAILED
  /\ scan CKV_EIGHTPOINT_004 (<["name" := v]> conf) = Ret FAILED
  /\ scan CKV_EIGHTPOINT_004 (delete "name" conf) = Ret FAILED.
Proof.
  intros Hv.
  assert (Hf : first_if_list v = Ret (VStr "")) by (destruct Hv; subst; reflexivity).
  repeat split; try exact Hf; cbn;
    unfold EightpointS3BucketNaming.scan_resource_conf,
      EightpointSecurityGroupNaming.scan_resource_conf,
      EightpointIAMRoleNaming.scan_resource_conf, conf_get;
    rewrite ?lookup_insert_eq, ?lookup_delete_eq; cbn [default from_option id];
    rewrite ?Hf; reflexivity.
Qed.

Lemma empty_name_fails_witness :
  scan CKV_EIGHTPOINT_003 (<["name" := VList [VStr ""]]> ∅) = Ret FAILED.
Proof.
  apply (empty_name_fails ∅ (VList [VStr ""])). right. reflexivity.
Defined.

(** The wrapped empty string is not left as it is: the unwrapping step of
    check 001 turns it into the empty string. *)
Lemma wrapped_empty_name_is_unwrapped :
  first_if_list (conf_get (record [("bucket", VList [VStr ""])]) "bucket")
  <> Ret (VList [VStr ""]).
Proof. vm_compute. discriminate. Qed.


(** ** Check 002: resource tagging *)

Lemma has_required_tags_dict (keys : list string) (d : gmap string value) :
  EightpointResourceTagging.has_required_tags keys (VDict d)
  = Ret (forallb (fun k => bool_decide (is_Some (d !! k))) keys).
Proof.
  induction keys as [|k keys IH]; [reflexivity|].
  cbn. destruct (bool_decide (is_Some (d !! k))); [exact IH|reflexivity].
Qed.

(** The check on a record whose tags are a sequence headed by a mapping:
    only the look-ups of the four required keys are left. *)
Lemma tagging_on_mapping (conf : gmap string value) (d : gmap string value)
    (l : list value) :
  conf !! "tags" = Some (VList (VDict d :: l)) ->
  scan CKV_EIGHTPOINT_002 conf =
  if forallb (fun k => bool_decide (is_Some (d !! k)))
             ["Team"; "Environment"; "Project"; "ManagedBy"]
  then
    team_value ← str_lower (default (VStr "") (d !! "Team"));
    if negb (in_strs team_value ["ios"; "android"; "shared"]) then Ret FAILED
    else
      env_value ← str_lower (default (VStr "") (d !! "Environment"));
      if negb (in_strs env_value ["dev"; "prod"; "global"; "test"])
      then Ret FAILED
      else
        managed_by ← str_lower (default (VStr "") (d !! "ManagedBy"));
        if negb (String.eqb managed_by "terraform") then Ret FAILED
        else Ret PASSED
  else Ret FAILED.
Proof.
  intros E. cbn [scan].
  unfold EightpointResourceTagging.scan_resource_conf, conf_get.
  rewrite E. cbn [default from_option id truthy isinstance_list negb orb
                  tags_dict_of subscript0 mbind result_bind].
  rewrite has_required_tags_dict. cbn [mbind result_bind].
  unfold EightpointResourceTagging.required_tags.
  destruct (forallb _ _); reflexivity.
Qed.

Lemma tagging_agree (conf1 conf2 : gmap string value)
    (d1 d2 : gmap string value) :
  attribute conf1 "tags" = Wrapped (VDict d1) ->
  attribute conf2 "tags" = Wrapped (VDict d2) ->
  (forall k, In k ["Team"; "Environment"; "Project"; "ManagedBy"] ->
             d1 !! k = d2 !! k) ->
  scan CKV_EIGHTPOINT_002 conf1 = scan CKV_EIGHTPOINT_002 conf2.
Proof.
  intros A1 A2 H.
  apply attribute_wrapped in A1 as [l1 E1].
  apply attribute_wrapped in A2 as [l2 E2].
  rewrite (tagging_on_mapping _ _ _ E1), (tagging_on_mapping _ _ _ E2).
  cbn [forallb].
  rewrite (H "Team"), (H "Environment"), (H "Project"), (H "ManagedBy")
    by (cbn; tauto).
  reflexivity.
Qed.

Lemma not_required_ne (k : string) :
  ~ In k ["Team"; "Environment"; "Project"; "ManagedBy"] ->
  forall k', In k' ["Team"; "Environment"; "Project"; "ManagedBy"] -> k <> k'.
Proof. intros H k' H' ->. exact (H H'). Qed.

Ltac tagging_step :=
  cbn [default from_option id str_lower mbind result_bind andb negb].

(** On tags whose first element is not a mapping the check is left with the
    key loop, which ends in FAILED or raises, and with the first [get],
    which raises. *)
Lemma tagging_on_non_mapping (conf : gmap string value) (v : value)
    (l : list value) :
  conf !! "tags" = Some (VList (v :: l)) ->
  (forall d, v <> VDict d) ->
  scan CKV_EIGHTPOINT_002 conf =
  (all_present ← EightpointResourceTagging.has_required_tags
                   ["Team"; "Environment"; "Project"; "ManagedBy"] v;
   if (all_present : bool) then Raise AttributeError else Ret FAILED).
Proof.
  intros E Hv. cbn [scan].
  unfold EightpointResourceTagging.scan_resource_conf, conf_get.
  rewrite E. cbn [default from_option id truthy isinstance_list negb orb
                  tags_dict_of subscript0 mbind result_bind].
  unfold EightpointResourceTagging.required_tags.
  destruct (EightpointResourceTagging.has_required_tags _ v) as [[|]|e];
    cbn [mbind result_bind negb]; try reflexivity.
  destruct v; try reflexivity. exfalso. eapply Hv. reflexivity.
Qed.

(** Claim C6, as the code has it.  Check 002 returns FAILED if the tags
    attribute is absent, empty or not a sequence; when the first element of
    the sequence is not a mapping it never returns PASSED.  On tags that
    unwrap to a mapping: FAILED if one of Team, Environment, Project,
    ManagedBy is missing (an empty string is a value like any other), FAILED
    if the lower-cased Team is not ios, android or shared, FAILED if the
    lower-cased Environment is not dev, prod, global or test, FAILED if the
    lower-cased ManagedBy is not terraform, and PASSED otherwise, whatever
    Project holds. *)
Theorem resource_tagging_rule (conf : gmap string value) :
  (attribute conf "tags" = Absent \/ (exists v, attribute conf "tags" = Bare v) ->
   scan CKV_EIGHTPOINT_002 conf = Ret FAILED)
  /\ (forall v : value,
        attribute conf "tags" = Wrapped v ->
        (forall d, v <> VDict d) ->
        scan CKV_EIGHTPOINT_002 conf <> Ret PASSED)
  /\ (forall d : gmap string value,
        attribute conf "tags" = Wrapped (VDict d) ->
        ((exists k, In k ["Team"; "Environment"; "Project"; "ManagedBy"]
                    /\ d !! k = None) ->
         scan CKV_EIGHTPOINT_002 conf = Ret FAILED)
        /\ (forall (team : string) (env managed project : value),
              d !! "Team" = Some (VStr team) ->
              d !! "Environment" = Some env ->
              d !! "Project" = Some project ->
              d !! "ManagedBy" = Some managed ->
              in_strs (lower team) ["ios"; "android"; "shared"] = false ->
              scan CKV_EIGHTPOINT_002 conf = Ret FAILED)
        /\ (forall (team env : string) (managed project : value),
              d !! "Team" = Some (VStr team) ->
              d !! "Environment" = Some (VStr env) ->
              d !! "Project" = Some project ->
              d !! "ManagedBy" = Some managed ->
              in_strs (lower team) ["ios"; "android"; "shared"] = true ->
              in_strs (lower env) ["dev"; "prod"; "global"; "test"] = false ->
              scan CKV_EIGHTPOINT_002 conf = Ret FAILED)
        /\ (forall (team env managed : string) (project : value),
              d !! "Team" = Some (VStr team) ->
              d !! "Environment" = Some (VStr env) ->
              d !! "Project" = Some project ->
              d !! "ManagedBy" = Some (VStr managed) ->
              scan CKV_EIGHTPOINT_002 conf =
              Ret (if in_strs (lower team) ["ios"; "android"; "shared"]
                      && in_strs (lower env) ["dev"; "prod"; "global"; "test"]
                      && String.eqb (lower managed) "terraform"
                   then PASSED else FAILED))).
Proof.
  split.
  - intros [A|[v A]].
    + apply attribute_absent in A. cbn.
      unfold EightpointResourceTagging.scan_resource_conf, conf_get.
      destruct A as [-> | [-> | ->]]; reflexivity.
    + apply attribute_bare in A as (E & L & _). cbn.
      unfold EightpointResourceTagging.scan_resource_conf, conf_get.
      rewrite E. cbn [default from_option id]. rewrite L, orb_true_r.
      reflexivity.
  - split.
    { intros v A Hv. apply attribute_wrapped in A as [l E].
      rewrite (tagging_on_non_mapping _ _ _ E Hv).
      destruct (EightpointResourceTagging.has_required_tags _ v) as [[|]|e];
        discriminate. }
    intros d A. apply attribute_wrapped in A as [l E].
    rewrite (tagging_on_mapping _ _ _ E). cbn [forallb andb].
    split; [|split; [|split]].
    + intros (k & Hk & Hn). cbn in Hk.
      assert (Hb : bool_decide (is_Some (@None value)) = false)
        by (apply bool_decide_eq_false_2; intros [? ?]; discriminate).
      destruct Hk as [<-|[<-|[<-|[<-|[]]]]]; rewrite Hn, Hb;
        repeat match goal with
               | |- context [bool_decide ?P] => destruct (bool_decide P)
               end; reflexivity.
    + intros team env managed project -> -> -> -> Ht.
      rewrite !bool_decide_eq_true_2 by eauto. tagging_step.
      rewrite Ht. reflexivity.
    + intros team env managed project -> -> -> -> Ht He.
      rewrite !bool_decide_eq_true_2 by eauto. tagging_step.
      rewrite Ht. tagging_step. rewrite He. reflexivity.
    + intros team env managed project -> -> -> ->.
      rewrite !bool_decide_eq_true_2 by eauto. tagging_step.
      destruct (in_strs (lower team) _); [|reflexivity]. tagging_step.
      destruct (in_strs (lower env) _); [|reflexivity]. tagging_step.
      destruct (String.eqb (lower managed) "terraform"); reflexivity.
Qed.

Lemma resource_tagging_rule_witness :
  scan CKV_EIGHTPOINT_002
    (record [("tags", VList [tag_map [("Team", "Shared"); ("Environment", "TEST");
                                      ("Project", "");
                                      ("ManagedBy", "terraform")]])])
  = Ret PASSED.
Proof.
  destruct (resource_tagging_rule
              (record [("tags", VList [tag_map [("Team", "Shared");
                                                ("Environment", "TEST");
                                                ("Project", "");
                                                ("ManagedBy", "terraform")]])]))
    as (_ & _ & H).
  destruct (H (list_to_map [("Team", VStr "Shared");
                            ("Environment", VStr "TEST");
                            ("Project", VStr "");
                            ("ManagedBy", VStr "terraform")]))
    as (_ & _ & _ & H4); [vm_compute; reflexivity|].
  apply (H4 "Shared" "TEST" "terraform" (VStr "")); vm_compute; reflexivity.
Defined.

(** A first element of the tags sequence that is no mapping can make the
    check raise instead of returning FAILED. *)
Lemma non_mapping_tags_raise :
  scan CKV_EIGHTPOINT_002 (record [("tags", VList [VNone])])
  = Raise TypeError
  /\ scan CKV_EIGHTPOINT_002
       (record [("tags", VList [VStr "Team Environment Project ManagedBy"])])
     = Raise AttributeError.
Proof. split; vm_compute; reflexivity. Qed.

(** Claim C9.  The result of check 002 depends only on the keys Team,
    Environment, Project and ManagedBy of the unwrapped tag mapping: two
    records whose tag mappings agree on these four keys get the same
    result, so inserting or deleting any other tag key changes nothing. *)
Theorem tagging_depends_on_required_tags_only :
  (forall (conf1 conf2 : gmap string value) (d1 d2 : gmap string value),
      attribute conf1 "tags" = Wrapped (VDict d1) ->
      attribute conf2 "tags" = Wrapped (VDict d2) ->
      (forall k, In k ["Team"; "Environment"; "Project"; "ManagedBy"] ->
                 d1 !! k = d2 !! k) ->
      scan CKV_EIGHTPOINT_002 conf1 = scan CKV_EIGHTPOINT_002 conf2)
  /\ (forall (conf : gmap string value) (d : gmap string value)
             (k : string) (v : value),
         ~ In k ["Team"; "Environment"; "Project"; "ManagedBy"] ->
         scan CKV_EIGHTPOINT_002 (<["tags" := VList [VDict (<[k := v]> d)]]> conf)
         = scan CKV_EIGHTPOINT_002 (<["tags" := VList [VDict d]]> conf)
         /\ scan CKV_EIGHTPOINT_002 (<["tags" := VList [VDict (delete k d)]]> conf)
            = scan CKV_EIGHTPOINT_002 (<["tags" := VList [VDict d]]> conf)).
Proof.
  split; [exact tagging_agree|].
  intros conf d k v Hk.
  pose proof (not_required_ne k Hk) as Hne.
  split.
  - apply (tagging_agree _ _ (<[k := v]> d) d).
    + unfold attribute. rewrite lookup_insert_eq. reflexivity.
    + unfold attribute. rewrite lookup_insert_eq. reflexivity.
    + intros k' Hk'. apply lookup_insert_ne, Hne, Hk'.
  - apply (tagging_agree _ _ (delete k d) d).
    + unfold attribute. rewrite lookup_insert_eq. reflexivity.
    + unfold attribute. rewrite lookup_insert_eq. reflexivity.
    + intros k' Hk'. apply lookup_delete_ne, Hne, Hk'.
Qed.

Lemma tagging_depends_on_required_tags_only_witness :
  scan CKV_EIGHTPOINT_002
    (<["tags" := VList [VDict (<["Owner" := VStr "me"]>
                                 (<["Team" := VInt 3]> ∅))]]> ∅)
  = scan CKV_EIGHTPOINT_002
      (<["tags" := VList [VDict (<["Team" := VInt 3]> ∅)]]> ∅).
Proof.
  apply (proj2 tagging_depends_on_required_tags_only
           ∅ (<["Team" := VInt 3]> ∅) "Owner" (VStr "me")).
  cbn. intros [H|[H|[H|[H|[]]]]]; discriminate H.
Defined.


(** ** The environment tag read by checks 005 and 006 *)

(** On a record whose tags are absent or a wrapped mapping, the two checks
    compute the tag mapping without raising and read the lower-cased
    [Environment] tag from it. *)
Lemma environment_of_tags (conf : gmap string value) (env : string) :
  environment_tag conf = Some env ->
  exists d : gmap string value,
    tags_dict_of (conf_get_default conf "tags" (VList [VDict ∅])) = Ret (VDict d)
    /\ (e ← dict_get (VDict d) "Environment" (VStr ""); str_lower e) = Ret env.
Proof.
  unfold environment_tag, conf_get_default.
  destruct (attribute conf "tags") as [|v|v] eqn:A; try discriminate.
  - intros H. injection H as <-.
    apply attribute_absent in A as [E|[E|E]]; rewrite E; exists ∅;
      split; reflexivity.
  - destruct v as [| | | | |d]; try discriminate.
    apply attribute_wrapped in A as [l E]. rewrite E.
    intros H. exists d. split; [reflexivity|].
    cbn [dict_get mbind result_bind].
    destruct (d !! "Environment") as [[| | |s| |]|]; try discriminate;
      injection H as <-; reflexivity.
Qed.

(** ** Check 006: RDS backup retention *)

(** Claim C5.  Check 006 returns FAILED if backup_retention_period is
    absent; otherwise, with the unwrapped retention and the lower-cased
    Environment tag (empty when the tags or the tag are missing), it returns
    PASSED exactly when retention >= 7 for the environments prod and
    production, and exactly when retention >= 1 for every other one. *)
Theorem rds_backup_retention_rule (conf : gmap string value) (env : string) :
  environment_tag conf = Some env ->
  (attribute conf "backup_retention_period" = Absent ->
   scan CKV_EIGHTPOINT_006 conf = Ret FAILED)
  /\ (forall retention : Z,
        attribute conf "backup_retention_period" = Wrapped (VInt retention) ->
        scan CKV_EIGHTPOINT_006 conf =
        Ret (if String.eqb env "prod" || String.eqb env "production"
             then (if 7 <=? retention then PASSED else FAILED)
             else (if 1 <=? retention then PASSED else FAILED))).
Proof.
  intros He. apply environment_of_tags in He as (d & Ht & Henv).
  cbn [scan]. unfold EightpointRDSBackupRetention.scan_resource_conf.
  rewrite Ht. cbn [mbind result_bind] in Henv |- *.
  destruct (dict_get (VDict d) "Environment" (VStr "")) as [e|]; [|discriminate].
  cbn [mbind result_bind] in Henv |- *. rewrite Henv.
  cbn [mbind result_bind]. unfold conf_get.
  split.
  - intros A. apply attribute_absent in A as [E|[E|E]]; rewrite E; reflexivity.
  - intros z A. apply attribute_wrapped in A as [l E]. rewrite E.
    cbn [default from_option id truthy isinstance_list andb subscript0
         mbind result_bind].
    destruct (String.eqb env "prod" || String.eqb env "production");
      cbn [ge_int mbind result_bind];
      match goal with |- context [(?a <=? z)] => destruct (a <=? z) end;
      reflexivity.
Qed.

Lemma rds_backup_retention_rule_witness :
  scan CKV_EIGHTPOINT_006
    (record [("tags", VList [tag_map [("Environment", "Production")]]);
             ("backup_retention_period", VList [VInt 6])])
  = Ret FAILED.
Proof.
  apply (proj2 (rds_backup_retention_rule
           (record [("tags", VList [tag_map [("Environment", "Production")]]);
                    ("backup_retention_period", VList [VInt 6])])
           "production" eq_refl) 6).
  vm_compute. reflexivity.
Defined.

(** ** Check 005: KMS key rotation *)

Lemma description_of_text (conf : gmap string value) (desc : string) :
  description_text conf = Some desc ->
  EightpointKMSKeyRotation.description_of conf = Ret (VStr desc).
Proof.
  unfold description_text, EightpointKMSKeyRotation.description_of,
    conf_get, conf_get_default.
  destruct (attribute conf "description") as [|v|v] eqn:A; try discriminate.
  - intros H. injection H as <-.
    apply attribute_absent in A as [E|[E|E]]; rewrite E; reflexivity.
  - destruct v as [| | |s| |]; try discriminate.
    intros H. injection H as <-.
    apply attribute_wrapped in A as [l E]. rewrite E. reflexivity.
Qed.

(** Claim C4.  Check 005 takes a record for production exactly when the
    lower-cased Environment tag equals prod or the lower-cased description
    contains prod or production.  A record that is not production gets
    PASSED whatever enable_key_rotation holds; a production record gets
    PASSED exactly when enable_key_rotation is present and its unwrapped
    value is true, and FAILED otherwise. *)
Theorem kms_rotation_rule (conf : gmap string value) (env desc : string) :
  environment_tag conf = Some env ->
  description_text conf = Some desc ->
  let production :=
    String.eqb env "prod" || contains "prod" (lower desc)
    || contains "production" (lower desc) in
  (exists tags_dict description : value,
      tags_dict_of (conf_get_default conf "tags" (VList [VDict ∅]))
      = Ret tags_dict
      /\ EightpointKMSKeyRotation.description_of conf = Ret description
      /\ EightpointKMSKeyRotation.is_prod tags_dict description
         = Ret production)
  /\ (production = false -> scan CKV_EIGHTPOINT_005 conf = Ret PASSED)
  /\ (production = true ->
      attribute conf "enable_key_rotation" = Absent ->
      scan CKV_EIGHTPOINT_005 conf = Ret FAILED)
  /\ (production = true ->
      forall v : value,
        attribute conf "enable_key_rotation" = Wrapped v ->
        scan CKV_EIGHTPOINT_005 conf =
        Ret (if truthy v then PASSED else FAILED)).
Proof.
  intros He Hd production.
  apply environment_of_tags in He as (d & Ht & Henv).
  apply description_of_text in Hd.
  assert (Hp : EightpointKMSKeyRotation.is_prod (VDict d) (VStr desc)
               = Ret production).
  { unfold EightpointKMSKeyRotation.is_prod.
    cbn [mbind result_bind] in Henv |- *.
    destruct (dict_get (VDict d) "Environment" (VStr "")) as [e|];
      [|discriminate].
    cbn [mbind result_bind] in Henv |- *. rewrite Henv.
    cbn [mbind result_bind str_lower]. unfold production.
    destruct (String.eqb env "prod"); [reflexivity|].
    destruct (contains "prod" (lower desc)); reflexivity. }
  split; [exists (VDict d), (VStr desc); auto|].
  cbn [scan]. unfold EightpointKMSKeyRotation.scan_resource_conf.
  rewrite Ht. cbn [mbind result_bind]. rewrite Hd. cbn [mbind result_bind].
  rewrite Hp. cbn [mbind result_bind]. unfold conf_get.
  split; [|split].
  - intros ->. reflexivity.
  - intros -> A.
    apply attribute_absent in A as [E|[E|E]]; rewrite E; reflexivity.
  - intros -> v A. apply attribute_wrapped in A as [l E]. rewrite E.
    cbn [default from_option id truthy isinstance_list andb subscript0
         mbind result_bind].
    destruct v as [|[]|z|s|[|x xs]|m]; try reflexivity.
    + cbn [truthy]. destruct (negb (z =? 0)); reflexivity.
    + cbn [truthy]. destruct (negb (String.eqb s "")); reflexivity.
    + cbn [truthy]. destruct (map_to_list m); reflexivity.
Qed.

Lemma kms_rotation_rule_witness :
  scan CKV_EIGHTPOINT_005
    (record [("description", VList [VStr "Production signing key"]);
             ("enable_key_rotation", VList [VBool true])])
  = Ret PASSED.
Proof.
  apply (proj2 (proj2 (proj2 (kms_rotation_rule
           (record [("description", VList [VStr "Production signing key"]);
                    ("enable_key_rotation", VList [VBool true])])
           "" "Production signing key" eq_refl eq_refl))) eq_refl (VBool true)).
  vm_compute. reflexivity.
Defined.

(** ** Check 007: EKS endpoint access *)

Lemma block_flag_read (d : gmap string value) (key : string) (dflt b : bool) :
  block_flag d key dflt = Some b ->
  (x ← dict_get (VDict d) key (VList [VBool dflt]); subscript0 x)
  = Ret (VBool b).
Proof.
  unfold block_flag. cbn [dict_get mbind result_bind].
  destruct (d !! key) as [[| | | |[|[| | | | |] l]|]|]; intros H;
    try discriminate; injection H as <-; reflexivity.
Qed.

(** Claim C3, which the code breaks.  The claim asks for FAILED when
    private and public access are on and public_access_cidrs is empty or
    holds "0.0.0.0/0".  The check unwraps the two flags with [[0]] but
    compares the CIDR attribute as the record holds it: on a record that
    wraps the CIDR list as a one-element sequence like every other
    attribute, the only element is the inner list, never the string, and
    the outer sequence is never empty.
    So with both flags on the check returns PASSED whatever the wrapped
    CIDR list holds, where the rule of the specification gives FAILED for an
    empty list and for a list that holds "0.0.0.0/0". *)
Theorem eks_wrapped_cidrs_unchecked
    (conf : gmap string value) (d : gmap string value) (cidrs : list value) :
  attribute conf "vpc_config" = Wrapped (VDict d) ->
  block_flag d "endpoint_private_access" false = Some true ->
  block_flag d "endpoint_public_access" true = Some true ->
  d !! "public_access_cidrs" = Some (VList [VList cidrs]) ->
  scan CKV_EIGHTPOINT_007 conf = Ret PASSED
  /\ eks_endpoint_spec conf =
     (if Nat.eqb (length cidrs) 0 || existsb (eq_str "0.0.0.0/0") cidrs
      then FAILED else PASSED).
Proof.
  intros A Hpriv Hpub Ec. split.
  - apply attribute_wrapped in A as [l E].
    cbn [scan].
    unfold EightpointEKSEndpointAccess.scan_resource_conf, conf_get.
    rewrite E.
    cbn [default from_option id truthy isinstance_list negb orb subscript0].
    change (mbind ?k (Ret ?a)) with (k a). cbv beta.
    apply block_flag_read in Hpriv. apply block_flag_read in Hpub.
    cbn [mbind result_bind] in Hpriv, Hpub |- *.
    destruct (dict_get (VDict d) "endpoint_private_access" _) as [x|];
      [|discriminate].
    cbn [mbind result_bind] in Hpriv |- *. rewrite Hpriv.
    cbn [mbind result_bind truthy negb].
    destruct (dict_get (VDict d) "endpoint_public_access" _) as [y|];
      [|discriminate].
    cbn [mbind result_bind] in Hpub |- *. rewrite Hpub.
    cbn [mbind result_bind truthy dict_get]. rewrite Ec.
    reflexivity.
  - unfold eks_endpoint_spec, spec_get. rewrite A.
    unfold block_flag in Hpriv, Hpub. unfold block_get. rewrite Ec.
    destruct (d !! "endpoint_private_access") as [[| | | |[|[|b| | | |] ?]|]|];
      try discriminate; injection Hpriv as ->.
    destruct (d !! "endpoint_public_access") as [[| | | |[|[|b| | | |] ?]|]|];
      try discriminate; try (injection Hpub as ->); reflexivity.
Qed.

Lemma eks_wrapped_cidrs_unchecked_witness :
  scan CKV_EIGHTPOINT_007
    (record [("vpc_config",
              VList [VDict (list_to_map
                [("endpoint_private_access", VList [VBool true]);
                 ("endpoint_public_access", VList [VBool true]);
                 ("public_access_cidrs",
                  VList [VList [VStr "0.0.0.0/0"]])])])])
  = Ret PASSED
  /\ eks_endpoint_spec
       (record [("vpc_config",
                 VList [VDict (list_to_map
                   [("endpoint_private_access", VList [VBool true]);
                    ("endpoint_public_access", VList [VBool true]);
                    ("public_access_cidrs",
                     VList [VList [VStr "0.0.0.0/0"]])])])])
     = FAILED.
Proof.
  apply (eks_wrapped_cidrs_unchecked
           (record [("vpc_config",
              VList [VDict (list_to_map
                [("endpoint_private_access", VList [VBool true]);
                 ("endpoint_public_access", VList [VBool true]);
                 ("public_access_cidrs",
                  VList [VList [VStr "0.0.0.0/0"]])])])])
           (list_to_map
                [("endpoint_private_access", VList [VBool true]);
                 ("endpoint_public_access", VList [VBool true]);
                 ("public_access_cidrs", VList [VList [VStr "0.0.0.0/0"]])])
           [VStr "0.0.0.0/0"]);
    vm_compute; reflexivity.
Defined.

(** ** Bare and sequence-wrapped attribute values *)

Ltac read_attribute :=
  rewrite ?lookup_insert_eq, ?lookup_delete_eq;
  rewrite ?lookup_insert_ne, ?lookup_delete_ne by discriminate;
  cbn [default from_option id].

Lemma bare_is_not_unwrapped (v : value) :
  isinstance_list v = false -> truthy v && isinstance_list v = false.
Proof. intros ->. apply andb_false_r. Qed.

(** Claim C1, as the code has it.  Checks 001, 003 and 004 give the same
    result for a value that is not a sequence and for that value wrapped as
    a one-element sequence.  The other checks do not unwrap uniformly: a
    bare value in tags (002) or vpc_config (007) yields FAILED, and a bare
    backup_retention_period (006) or enable_key_rotation (005) is treated
    as a missing attribute. *)
Theorem wrapping_by_check (conf : gmap string value) (v : value) :
  isinstance_list v = false ->
  scan CKV_EIGHTPOINT_001 (<["bucket" := VList [v]]> conf)
  = scan CKV_EIGHTPOINT_001 (<["bucket" := v]> conf)
  /\ scan CKV_EIGHTPOINT_003 (<["name" := VList [v]]> conf)
     = scan CKV_EIGHTPOINT_003 (<["name" := v]> conf)
  /\ scan CKV_EIGHTPOINT_004 (<["name" := VList [v]]> conf)
     = scan CKV_EIGHTPOINT_004 (<["name" := v]> conf)
  /\ scan CKV_EIGHTPOINT_002 (<["tags" := v]> conf) = Ret FAILED
  /\ scan CKV_EIGHTPOINT_007 (<["vpc_config" := v]> conf) = Ret FAILED
  /\ scan CKV_EIGHTPOINT_006 (<["backup_retention_period" := v]> conf)
     = scan CKV_EIGHTPOINT_006 (delete "backup_retention_period" conf)
  /\ scan CKV_EIGHTPOINT_005 (<["enable_key_rotation" := v]> conf)
     = scan CKV_EIGHTPOINT_005 (delete "enable_key_rotation" conf).
Proof.
  intros Hv. pose proof (bare_is_not_unwrapped v Hv) as Hb.
  repeat split; cbn [scan].
  - unfold EightpointS3BucketNaming.scan_resource_conf, conf_get.
    read_attribute. rewrite (first_if_list_wrap v Hv). reflexivity.
  - unfold EightpointSecurityGroupNaming.scan_resource_conf, conf_get.
    read_attribute. rewrite (first_if_list_wrap v Hv). reflexivity.
  - unfold EightpointIAMRoleNaming.scan_resource_conf, conf_get.
    read_attribute. rewrite (first_if_list_wrap v Hv). reflexivity.
  - unfold EightpointResourceTagging.scan_resource_conf, conf_get.
    read_attribute. rewrite Hv, orb_true_r. reflexivity.
  - unfold EightpointEKSEndpointAccess.scan_resource_conf, conf_get.
    read_attribute. rewrite Hv, orb_true_r. reflexivity.
  - unfold EightpointRDSBackupRetention.scan_resource_conf, conf_get,
      conf_get_default.
    read_attribute. rewrite Hb. reflexivity.
  - unfold EightpointKMSKeyRotation.scan_resource_conf,
      EightpointKMSKeyRotation.description_of, conf_get, conf_get_default.
    read_attribute. rewrite Hb. reflexivity.
Qed.

Lemma wrapping_by_check_witness :
  scan CKV_EIGHTPOINT_006 (<["backup_retention_period" := VInt 30]> ∅)
  = scan CKV_EIGHTPOINT_006 (delete "backup_retention_period" ∅).
Proof.
  apply (wrapping_by_check ∅ (VInt 30)). reflexivity.
Defined.

(** Wrapping does change the verdict of checks 006 and 002: a bare
    retention of 7 days fails where the wrapped one passes, and so does a
    bare tag mapping. *)
Lemma wrapping_changes_verdict :
  scan CKV_EIGHTPOINT_006 (record [("backup_retention_period", VInt 7)])
  = Ret FAILED
  /\ scan CKV_EIGHTPOINT_006
       (record [("backup_retention_period", VList [VInt 7])])
     = Ret PASSED
  /\ scan CKV_EIGHTPOINT_002
       (record [("tags", tag_map [("Team", "ios"); ("Environment", "dev");
                                  ("Project", "x"); ("ManagedBy", "terraform")])])
     = Ret FAILED
  /\ scan CKV_EIGHTPOINT_002
       (record [("tags", VList [tag_map [("Team", "ios"); ("Environment", "dev");
                                         ("Project", "x");
                                         ("ManagedBy", "terraform")]])])
     = Ret PASSED.
Proof. repeat split; vm_compute; reflexivity. Qed.


(** Check 005 indexes its description and tags without a guard: of a bare
    description string only the first character is read, and a bare
    non-empty tag mapping is asked for the key [0]. *)
Lemma kms_bare_description_and_tags :
  scan CKV_EIGHTPOINT_005 (record [("description", VStr "production key")])
  = Ret PASSED
  /\ scan CKV_EIGHTPOINT_005
       (record [("description", VList [VStr "production key"])])
     = Ret FAILED
  /\ scan CKV_EIGHTPOINT_005
       (record [("tags", tag_map [("Environment", "prod")])])
     = Raise KeyError.
Proof. repeat split; vm_compute; reflexivity. Qed.

(** ** Totality *)

Section Totality.

Variable conf : gmap string value.

Lemma verdict_of_if (b : bool) :
  returns_verdict (Ret (if b then PASSED else FAILED)).
Proof. destruct b; [left|right]; reflexivity. Qed.

Lemma name_shape_get (key : string) :
  name_shape (attribute conf key) = true ->
  spec_get conf key = None \/ exists s, spec_get conf key = Some (VStr s).
Proof.
  unfold spec_get.
  destruct (attribute conf key) as [|[| | |s| |]|[| | |s| |]]; cbn;
    try discriminate; eauto.
Qed.

Lemma s3_total :
  name_shape (attribute conf "bucket") = true ->
  returns_verdict (scan CKV_EIGHTPOINT_001 conf).
Proof.
  intros H. apply name_shape_get in H as [H|[s H]]; cbn [scan];
    unfold EightpointS3BucketNaming.scan_resource_conf.
  - apply spec_get_none in H as (v & -> & Hf). cbn [mbind result_bind].
    rewrite Hf. right. reflexivity.
  - apply spec_get_str in H as ->. cbn [mbind result_bind].
    destruct (truthy (VStr s)); [|right; reflexivity].
    rewrite any_startswith, any_str_in. cbn [mbind result_bind].
    match goal with |- returns_verdict (if ?b then _ else _) => destruct b end;
      [left|right]; reflexivity.
Qed.

Lemma naming_total :
  name_shape (attribute conf "name") = true ->
  returns_verdict (scan CKV_EIGHTPOINT_003 conf)
  /\ returns_verdict (scan CKV_EIGHTPOINT_004 conf).
Proof.
  intros H. apply name_shape_get in H as [H|[s H]].
  - apply spec_get_none in H as (v & Hv & Hf). cbn [scan].
    unfold EightpointSecurityGroupNaming.scan_resource_conf,
      EightpointIAMRoleNaming.scan_resource_conf.
    rewrite Hv. cbn [mbind result_bind]. rewrite Hf.
    split; right; reflexivity.
  - apply spec_get_str in H.
    rewrite (security_group_on_name _ _ H), (iam_role_on_name _ _ H).
    unfold naming_rule.
    split; repeat match goal with
                  | |- returns_verdict (Ret (if ?b then _ else _)) => destruct b
                  end; (left; reflexivity) || (right; reflexivity).
Qed.

Lemma str_or_missing_lower (o : option value) :
  str_or_missing o = true ->
  exists s, str_lower (default (VStr "") o) = Ret s.
Proof. destruct o as [[| | |s| |]|]; cbn; try discriminate; eauto. Qed.

Lemma tagging_total :
  tags_shape (attribute conf "tags") = true ->
  returns_verdict (scan CKV_EIGHTPOINT_002 conf).
Proof.
  destruct (attribute conf "tags") as [|v|v] eqn:A; cbn [tags_shape];
    try discriminate.
  - intros _. right. cbn [scan].
    unfold EightpointResourceTagging.scan_resource_conf, conf_get.
    apply attribute_absent in A as [-> | [-> | ->]]; reflexivity.
  - destruct v as [| | | | |d]; try discriminate.
    rewrite !andb_true_iff. intros [[Ht He] Hm].
    apply attribute_wrapped in A as [l E].
    rewrite (tagging_on_mapping _ _ _ E).
    apply str_or_missing_lower in Ht as [t ->], He as [e ->], Hm as [m ->].
    cbn [mbind result_bind].
    repeat match goal with
           | |- returns_verdict (if ?b then _ else _) => destruct b
           end; (left; reflexivity) || (right; reflexivity).
Qed.

Lemma tags_shape_environment :
  tags_shape (attribute conf "tags") = true ->
  exists env, environment_tag conf = Some env.
Proof.
  unfold environment_tag.
  destruct (attribute conf "tags") as [|[| | | | |d]|v]; cbn [tags_shape];
    try discriminate; [eauto|].
  rewrite !andb_true_iff. intros [[_ He] _].
  destruct (d !! "Environment") as [[| | |s| |]|]; try discriminate; eauto.
Qed.

Lemma rds_total :
  tags_shape (attribute conf "tags") = true ->
  retention_shape (attribute conf "backup_retention_period") = true ->
  returns_verdict (scan CKV_EIGHTPOINT_006 conf).
Proof.
  intros Ht Hr. apply tags_shape_environment in Ht as [env He].
  apply environment_of_tags in He as (d & Hd & Henv).
  cbn [scan]. unfold EightpointRDSBackupRetention.scan_resource_conf.
  rewrite Hd. cbn [mbind result_bind] in Henv |- *.
  destruct (dict_get (VDict d) "Environment" (VStr "")) as [e|]; [|discriminate].
  cbn [mbind result_bind] in Henv |- *. rewrite Henv.
  cbn [mbind result_bind]. unfold conf_get.
  destruct (attribute conf "backup_retention_period") as [|v|v] eqn:A.
  - right. apply attribute_absent in A as [-> | [-> | ->]]; reflexivity.
  - destruct v as [| |z| | |]; try discriminate.
    apply attribute_wrapped in A as [l ->].
    cbn [default from_option id truthy isinstance_list andb subscript0
         mbind result_bind ge_int].
    repeat match goal with
           | |- returns_verdict (if ?b then _ else _) => destruct b
           end; cbn [mbind result_bind];
      repeat match goal with
             | |- returns_verdict (if ?b then _ else _) => destruct b
             end; (left; reflexivity) || (right; reflexivity).
  - destruct v as [| |z| | |]; try discriminate.
    apply attribute_bare in A as (-> & _ & _). right. cbn.
    rewrite andb_false_r. reflexivity.
Qed.

Lemma description_total :
  name_shape (attribute conf "description") = true ->
  exists s, EightpointKMSKeyRotation.description_of conf = Ret (VStr s).
Proof.
  unfold EightpointKMSKeyRotation.description_of, conf_get, conf_get_default.
  destruct (attribute conf "description") as [|v|v] eqn:A.
  - intros _. exists "".
    apply attribute_absent in A as [-> | [-> | ->]]; reflexivity.
  - destruct v as [| | |s| |]; try discriminate. intros _.
    apply attribute_wrapped in A as [l ->]. exists s. reflexivity.
  - destruct v as [| | |s| |]; try discriminate. intros _.
    apply attribute_bare in A as (-> & _ & _).
    destruct s as [|c t]; [exists ""|exists (String c "")]; reflexivity.
Qed.

Lemma rotation_total (v : value) :
  returns_verdict
    (if truthy v && isinstance_list v
     then r0 ← subscript0 v; if truthy r0 then Ret PASSED else Ret FAILED
     else Ret FAILED).
Proof.
  destruct v as [|b|z|s|[|x l]|d]; cbn [isinstance_list];
    rewrite ?andb_false_r; try (right; reflexivity).
  cbn [truthy andb subscript0 mbind result_bind].
  destruct (truthy x); [left|right]; reflexivity.
Qed.

Lemma kms_total :
  tags_shape (attribute conf "tags") = true ->
  name_shape (attribute conf "description") = true ->
  returns_verdict (scan CKV_EIGHTPOINT_005 conf).
Proof.
  intros Ht Hd. apply tags_shape_environment in Ht as [env He].
  apply environment_of_tags in He as (d & Htd & Henv).
  apply description_total in Hd as [s Hs].
  cbn [scan]. unfold EightpointKMSKeyRotation.scan_resource_conf.
  rewrite Htd. cbn [mbind result_bind]. rewrite Hs. cbn [mbind result_bind].
  unfold EightpointKMSKeyRotation.is_prod.
  cbn [mbind result_bind] in Henv |- *.
  destruct (dict_get (VDict d) "Environment" (VStr "")) as [e|]; [|discriminate].
  cbn [mbind result_bind] in Henv |- *. rewrite Henv.
  cbn [mbind result_bind str_lower].
  destruct (String.eqb env "prod"); cbn [mbind result_bind];
    [apply rotation_total|].
  destruct (contains "prod" (lower s)); cbn [mbind result_bind];
    [apply rotation_total|].
  destruct (contains "production" (lower s)); cbn [mbind result_bind];
    [apply rotation_total|left; reflexivity].
Qed.

Lemma eks_total :
  vpc_shape (attribute conf "vpc_config") = true ->
  returns_verdict (scan CKV_EIGHTPOINT_007 conf).
Proof.
  cbn [scan]. unfold EightpointEKSEndpointAccess.scan_resource_conf, conf_get.
  destruct (attribute conf "vpc_config") as [|v|v] eqn:A; cbn [vpc_shape];
    try discriminate.
  - intros _. right.
    apply attribute_absent in A as [-> | [-> | ->]]; reflexivity.
  - destruct v as [| | | | |d]; try discriminate.
    apply attribute_wrapped in A as [l ->].
    rewrite !andb_true_iff. intros [[Hpriv Hpub] Hc].
    cbn [default from_option id truthy isinstance_list negb orb subscript0
         dict_get mbind result_bind].
    destruct (d !! "endpoint_private_access") as [[| | | |[|x xs]|]|];
      try discriminate; cbn [default from_option id subscript0 mbind result_bind];
      (destruct (truthy _); cbn [negb]; [|right; reflexivity]);
      (destruct (d !! "endpoint_public_access") as [[| | | |[|y ys]|]|];
       try discriminate;
       cbn [default from_option id subscript0 mbind result_bind]);
      (destruct (truthy _); [|left; reflexivity]);
      (destruct (d !! "public_access_cidrs") as [[| | | |[|c cs]|]|];
       try discriminate;
       cbn [default from_option id truthy negb str_in mbind result_bind]);
      try (right; reflexivity);
      (destruct (existsb _ _); [right|left]; reflexivity).
Qed.

End Totality.

(** Claim C2, as the code has it.  On every record whose examined
    attributes are absent or well-typed, each of the seven checks returns
    PASSED or FAILED and does not raise. *)
Theorem checks_total_on_well_formed (conf : gmap string value) (c : check_id) :
  well_formed conf = true ->
  returns_verdict (scan c conf).
Proof.
  unfold well_formed. rewrite !andb_true_iff.
  intros [[[[[Hb Hn] Ht] Hd] Hr] Hv].
  destruct c.
  - apply s3_total, Hb.
  - apply tagging_total, Ht.
  - apply naming_total, Hn.
  - apply naming_total, Hn.
  - apply kms_total; assumption.
  - apply rds_total; assumption.
  - apply eks_total, Hv.
Qed.

Lemma checks_total_on_well_formed_witness :
  returns_verdict
    (scan CKV_EIGHTPOINT_006
       (record [("tags", VList [tag_map [("Environment", "prod")]]);
                ("backup_retention_period", VList [VInt 14])])).
Proof.
  apply checks_total_on_well_formed. vm_compute. reflexivity.
Defined.

(** The checks do raise on malformed values: a non-numeric retention, a
    non-string bucket name and a non-mapping inside the tags sequence. *)
Lemma malformed_values_raise :
  scan CKV_EIGHTPOINT_006
    (record [("backup_retention_period", VList [VStr "7"])])
  = Raise TypeError
  /\ scan CKV_EIGHTPOINT_001 (record [("bucket", VList [VInt 5])])
     = Raise AttributeError
  /\ scan CKV_EIGHTPOINT_002 (record [("tags", VList [VInt 5])])
     = Raise TypeError.
Proof. repeat split; vm_compute; reflexivity. Qed.


(** * Further properties of the checks *)

(** ** Strings: prefixes, substrings, lower-casing and splitting *)

Section StringFacts.

Lemma prefix_nil (s : string) : String.prefix "" s = true.
Proof. destruct s; reflexivity. Qed.

Lemma prefix_app_r (p s t : string) :
  String.prefix p s = true -> String.prefix p (s +:+ t) = true.
Proof.
  revert s. induction p as [|a p IH]; intros s H; [apply prefix_nil|].
  destruct s as [|b s]; [discriminate|].
  change (String b s +:+ t) with (String b (s +:+ t)).
  cbn [String.prefix] in H |- *.
  destruct (ascii_dec a b); [apply IH, H|discriminate].
Qed.

Lemma prefix_app_l (a b s : string) :
  String.prefix (a +:+ b) s = true -> String.prefix a s = true.
Proof.
  revert s. induction a as [|c a IH]; intros s H; [apply prefix_nil|].
  destruct s as [|d s]; [discriminate|].
  change (String c a +:+ b) with (String c (a +:+ b)) in H.
  cbn [String.prefix] in H |- *.
  destruct (ascii_dec c d); [apply IH, H|discriminate].
Qed.

Lemma contains_app_r (e s t : string) :
  contains e s = true -> contains e (s +:+ t) = true.
Proof.
  induction s as [|c s IH]; cbn [contains]; intros H.
  - rewrite orb_false_r in H. destruct e; [|discriminate].
    change ("" +:+ t) with t. destruct t; reflexivity.
  - apply orb_true_iff in H as [H|H].
    + pose proof (prefix_app_r e (String c s) t H) as H'.
      change (String c s +:+ t) with (String c (s +:+ t)) in H' |- *.
      cbn [contains]. rewrite H'. reflexivity.
    + change (String c s +:+ t) with (String c (s +:+ t)).
      cbn [contains]. rewrite (IH H). apply orb_true_r.
Qed.

Lemma contains_weaken (a b s : string) :
  contains (a +:+ b) s = true -> contains a s = true.
Proof.
  induction s as [|c s IH]; cbn [contains]; intros H.
  - rewrite orb_false_r in H |- *. exact (prefix_app_l a b _ H).
  - apply orb_true_iff in H as [H|H].
    + rewrite (prefix_app_l a b _ H). reflexivity.
    + rewrite (IH H). apply orb_true_r.
Qed.

Lemma lower_ascii_idem (c : ascii) :
  lower_ascii (lower_ascii c) = lower_ascii c.
Proof. destruct c as [[] [] [] [] [] [] [] []]; reflexivity. Qed.

Lemma lower_idem (s : string) : lower (lower s) = lower s.
Proof.
  induction s as [|c s IH]; [reflexivity|].
  cbn [lower]. rewrite lower_ascii_idem, IH. reflexivity.
Qed.

Lemma lower_ascii_hyphen (c : ascii) :
  Ascii.eqb (lower_ascii c) "-" = Ascii.eqb c "-".
Proof. destruct c as [[] [] [] [] [] [] [] []]; reflexivity. Qed.

(** Lower-casing neither makes nor removes a hyphen, so it commutes with
    splitting. *)
Lemma split_lower (s : string) :
  split "-" (lower s) = map lower (split "-" s).
Proof.
  induction s as [|c s IH]; [reflexivity|].
  cbn [lower split]. rewrite lower_ascii_hyphen, IH.
  destruct (Ascii.eqb c "-"); [reflexivity|].
  destruct (split "-" s); reflexivity.
Qed.

Lemma lower_truthy (s : string) :
  truthy (VStr (lower s)) = truthy (VStr s).
Proof. destruct s; reflexivity. Qed.

(** A string splits in two parts or more exactly when it holds the
    separator. *)
Lemma split_two_parts (sep : ascii) (s : string) :
  (2 <=? length (split sep s))%nat = contains (String sep "") s.
Proof.
  induction s as [|c s IH]; [reflexivity|].
  cbn [split contains String.prefix].
  destruct (ascii_dec sep c) as [->|Hne].
  - rewrite Ascii.eqb_refl. cbn [length].
    pose proof (split_nonempty c s) as Hs.
    destruct (split c s); [contradiction|]. destruct s; reflexivity.
  - assert (Ascii.eqb c sep = false) as ->
      by (apply Ascii.eqb_neq; congruence).
    cbn [orb]. rewrite <- IH.
    pose proof (split_nonempty sep s) as Hs.
    destruct (split sep s); [contradiction|]. reflexivity.
Qed.

(** The first part of a split, and what is split after it. *)
Lemma split_cons_inv (sep : ascii) (s p q : string) (rest : list string) :
  split sep s = p :: q :: rest ->
  exists s', s = p +:+ String sep s' /\ split sep s' = q :: rest.
Proof.
  revert p. induction s as [|c s IH]; intros p H; [discriminate|].
  cbn [split] in H. destruct (Ascii.eqb c sep) eqn:E.
  - apply Ascii.eqb_eq in E as ->. injection H as <- H.
    exists s. split; [reflexivity|exact H].
  - destruct (split sep s) as [|h r] eqn:Es; [discriminate|].
    injection H as <- ->.
    destruct (IH h eq_refl) as (s' & -> & Hs').
    exists s'. split; [reflexivity|exact Hs'].
Qed.

Lemma in_strs_In (x : string) (l : list string) :
  in_strs x l = true <-> In x l.
Proof.
  unfold in_strs. rewrite existsb_exists. split.
  - intros (y & Hy & E). apply String.eqb_eq in E as ->. exact Hy.
  - intros H. exists x. split; [exact H|apply String.eqb_refl].
Qed.

End StringFacts.


(** ** The naming checks on arbitrary records *)

Lemma first_if_list_total (v : value) : exists w, first_if_list v = Ret w.
Proof.
  destruct v as [| | | |[|x l]|]; eexists;
    try reflexivity; apply first_if_list_not_list; reflexivity.
Qed.

(** When the unwrapping idiom yields a string, the record holds that string
    bare or first in a sequence. *)
Lemma first_if_list_str (conf : gmap string value) (key s : string) :
  first_if_list (conf_get conf key) = Ret (VStr s) ->
  spec_get conf key = Some (VStr s).
Proof.
  unfold conf_get, spec_get, attribute.
  destruct (conf !! key) as [[| | | |[|x l]|]|]; cbn [default from_option id];
    try (rewrite first_if_list_not_list by reflexivity);
    intros H; try discriminate H; injection H as ->; reflexivity.
Qed.

Lemma s3_on_name (conf : gmap string value) (name : string) :
  first_if_list (conf_get conf "bucket") = Ret (VStr name) ->
  scan CKV_EIGHTPOINT_001 conf =
  Ret (if existsb (fun p => String.prefix p name)
                  ["ios-"; "android-"; "shared-"; "mob-"]
          && existsb (fun e => contains e name)
                     ["-dev-"; "-prod-"; "-global-"]
       then PASSED else FAILED).
Proof.
  intros H. cbn [scan]. unfold EightpointS3BucketNaming.scan_resource_conf.
  rewrite H. cbn [mbind result_bind].
  destruct name as [|c t]; [reflexivity|].
  change (truthy (VStr (String c t))) with true. cbv iota.
  rewrite any_startswith, any_str_in. cbn [mbind result_bind].
  unfold EightpointS3BucketNaming.valid_prefixes,
    EightpointS3BucketNaming.valid_environments.
  destruct (existsb _ _ && existsb _ _); reflexivity.
Qed.

(** A value that is no string is never accepted as a name. *)
Lemma s3_passed_string (conf : gmap string value) :
  scan CKV_EIGHTPOINT_001 conf = Ret PASSED ->
  exists name, spec_get conf "bucket" = Some (VStr name).
Proof.
  cbn [scan]. unfold EightpointS3BucketNaming.scan_resource_conf.
  destruct (first_if_list_total (conf_get conf "bucket")) as [w Hw].
  rewrite Hw. cbn [mbind result_bind].
  destruct w as [| | |s| |];
    try (intros _; exists s; apply first_if_list_str, Hw);
    destruct (truthy _); cbn; discriminate.
Qed.

Lemma security_group_passed_string (conf : gmap string value) :
  scan CKV_EIGHTPOINT_003 conf = Ret PASSED ->
  exists name, spec_get conf "name" = Some (VStr name).
Proof.
  cbn [scan]. unfold EightpointSecurityGroupNaming.scan_resource_conf.
  destruct (first_if_list_total (conf_get conf "name")) as [w Hw].
  rewrite Hw. cbn [mbind result_bind].
  destruct w as [| | |s| |];
    try (intros _; exists s; apply first_if_list_str, Hw);
    destruct (truthy _); cbn; discriminate.
Qed.

Lemma iam_role_passed_string (conf : gmap string value) :
  scan CKV_EIGHTPOINT_004 conf = Ret PASSED ->
  exists name, spec_get conf "name" = Some (VStr name).
Proof.
  cbn [scan]. unfold EightpointIAMRoleNaming.scan_resource_conf.
  destruct (first_if_list_total (conf_get conf "name")) as [w Hw].
  rewrite Hw. cbn [mbind result_bind].
  destruct w as [| | |s| |];
    try (intros _; exists s; apply first_if_list_str, Hw);
    destruct (truthy _); cbn; discriminate.
Qed.

(** The names the structural rule accepts, compared as they are: a team, an
    environment and a remainder with a hyphen in it, joined by hyphens. *)
Lemma naming_rule_language (name : string) :
  naming_rule (fun p => p) name = PASSED <->
  exists t e rest,
    In t ["ios"; "android"; "shared"] /\ In e ["dev"; "prod"; "global"]
    /\ contains "-" rest = true
    /\ name = t +:+ "-" +:+ e +:+ "-" +:+ rest.
Proof.
  unfold naming_rule. split.
  - destruct (length (split "-" name) <? 4)%nat eqn:L; [discriminate|].
    destruct (in_strs (nth 0 (split "-" name) "") _) eqn:E0; [|discriminate].
    destruct (in_strs (nth 1 (split "-" name) "") _) eqn:E1; [|discriminate].
    intros _. apply Nat.ltb_ge in L.
    destruct (split "-" name) as [|p0 [|p1 [|p2 [|p3 r]]]] eqn:S;
      cbn [length] in L; try lia.
    cbn [nth] in E0, E1.
    apply split_cons_inv in S as (s1 & -> & S1).
    apply split_cons_inv in S1 as (s2 & -> & S2).
    exists p0, p1, s2. apply in_strs_In in E0, E1.
    repeat split; try assumption.
    rewrite <- (split_two_parts "-" s2), S2. reflexivity.
  - intros (t & e & rest & Ht & He & Hc & ->).
    rewrite <- (split_two_parts "-" rest) in Hc.
    cbn [In] in Ht, He.
    destruct Ht as [<-|[<-|[<-|[]]]]; destruct He as [<-|[<-|[<-|[]]]];
      cbv [append]; cbn [split Ascii.eqb Bool.eqb];
      (destruct (split "-" rest) as [|a [|b r]]; [discriminate|discriminate|]);
      reflexivity.
Qed.

Lemma lower_nth (l : list string) (n : nat) :
  nth n (map lower l) "" = lower (nth n l "").
Proof. apply (map_nth lower l "" n). Qed.

(** Comparing lower-cased parts is comparing the parts of the lower-cased
    name. *)
Lemma naming_rule_of_lower (name : string) :
  naming_rule lower name = naming_rule (fun p => p) (lower name).
Proof.
  unfold naming_rule.
  rewrite split_lower, length_map, !lower_nth. reflexivity.
Qed.

Lemma lower_app (s t : string) : lower (s +:+ t) = lower s +:+ lower t.
Proof.
  induction s as [|c s IH]; [reflexivity|].
  change (String c s +:+ t) with (String c (s +:+ t)).
  cbn [lower]. rewrite IH. reflexivity.
Qed.

(** Appending to an accepted name keeps it accepted. *)
Lemma naming_rule_extend (name suffix : string) :
  naming_rule (fun p => p) name = PASSED ->
  naming_rule (fun p => p) (name +:+ suffix) = PASSED.
Proof.
  rewrite !naming_rule_language.
  intros (t & e & rest & Ht & He & Hc & ->).
  exists t, e, (rest +:+ suffix).
  repeat split; try assumption; [apply contains_app_r, Hc|].
  cbn [In] in Ht, He.
  destruct Ht as [<-|[<-|[<-|[]]]]; destruct He as [<-|[<-|[<-|[]]]];
    reflexivity.
Qed.


(** Property X5.  Check 003 accepts a record exactly when its name, bare or first in a
    sequence, is a string of the form team-environment-rest where team is
    ios, android or shared, environment is dev, prod or global and rest
    holds at least one more hyphen; records with any other value in name
    are never accepted. *)
Theorem security_group_accepted_names (conf : gmap string value) :
  scan CKV_EIGHTPOINT_003 conf = Ret PASSED <->
  exists t e rest,
    In t ["ios"; "android"; "shared"] /\ In e ["dev"; "prod"; "global"]
    /\ contains "-" rest = true
    /\ spec_get conf "name" = Some (VStr (t +:+ "-" +:+ e +:+ "-" +:+ rest)).
Proof.
  split.
  - intros H. destruct (security_group_passed_string conf H) as [name Hn].
    rewrite (security_group_on_name conf name (spec_get_str _ _ _ Hn)) in H.
    injection H as H. apply naming_rule_language in H
      as (t & e & rest & Ht & He & Hc & ->).
    exists t, e, rest. auto.
  - intros (t & e & rest & Ht & He & Hc & Hn).
    rewrite (security_group_on_name conf _ (spec_get_str _ _ _ Hn)).
    f_equal. apply naming_rule_language. exists t, e, rest. auto.
Qed.

Lemma security_group_accepted_names_witness :
  scan CKV_EIGHTPOINT_003 (record [("name", VStr "shared-global-vpc-")])
  = Ret PASSED.
Proof.
  apply (proj2 (security_group_accepted_names
                  (record [("name", VStr "shared-global-vpc-")]))).
  exists "shared", "global", "vpc-".
  repeat split; try (vm_compute; reflexivity); cbn; tauto.
Defined.

(** Property X7.  Check 004 is check 003 applied to the lower-cased name, so it gives one
    result for all names that differ in case only. *)
Theorem iam_role_is_case_insensitive
    (conf1 conf2 : gmap string value) (n1 n2 : string) :
  spec_get conf1 "name" = Some (VStr n1) ->
  spec_get conf2 "name" = Some (VStr n2) ->
  (n2 = lower n1 ->
   scan CKV_EIGHTPOINT_004 conf1 = scan CKV_EIGHTPOINT_003 conf2)
  /\ (lower n1 = lower n2 ->
      scan CKV_EIGHTPOINT_004 conf1 = scan CKV_EIGHTPOINT_004 conf2).
Proof.
  intros H1 H2. apply spec_get_str in H1, H2.
  rewrite (iam_role_on_name _ _ H1), (iam_role_on_name _ _ H2),
    (security_group_on_name _ _ H2), !naming_rule_of_lower.
  split; intros E; rewrite E; reflexivity.
Qed.

Lemma iam_role_is_case_insensitive_witness :
  scan CKV_EIGHTPOINT_004 (record [("name", VStr "iOS-Dev-EKS-NodeGroup")])
  = scan CKV_EIGHTPOINT_004 (record [("name", VList [VStr "IOS-DEV-eks-nodegroup"])]).
Proof.
  apply (proj2 (iam_role_is_case_insensitive
                  (record [("name", VStr "iOS-Dev-EKS-NodeGroup")])
                  (record [("name", VList [VStr "IOS-DEV-eks-nodegroup"])])
                  "iOS-Dev-EKS-NodeGroup" "IOS-DEV-eks-nodegroup"
                  eq_refl eq_refl)).
  vm_compute. reflexivity.
Defined.

Lemma existsb_intro (A : Type) (f : A -> bool) (l : list A) (x : A) :
  In x l -> f x = true -> existsb f l = true.
Proof. intros Hx Hf. apply existsb_exists. eauto. Qed.

Lemma existsb_weaken (A : Type) (f g : A -> bool) (l : list A) :
  (forall x, f x = true -> g x = true) ->
  existsb f l = true -> existsb g l = true.
Proof.
  intros H E. apply existsb_exists in E as (x & Hx & Hf).
  apply existsb_exists. eauto.
Qed.

(** Property X8.  A name check 003 accepts for a security group is accepted by check 001
    as a bucket name. *)
Theorem security_group_name_is_bucket_name
    (conf1 conf2 : gmap string value) (n : string) :
  spec_get conf1 "name" = Some (VStr n) ->
  spec_get conf2 "bucket" = Some (VStr n) ->
  scan CKV_EIGHTPOINT_003 conf1 = Ret PASSED ->
  scan CKV_EIGHTPOINT_001 conf2 = Ret PASSED.
Proof.
  intros H1 H2 P.
  rewrite (security_group_on_name _ _ (spec_get_str _ _ _ H1)) in P.
  injection P as P.
  apply naming_rule_language in P as (t & e & rest & Ht & He & _ & ->).
  rewrite (s3_on_name _ _ (spec_get_str _ _ _ H2)).
  assert (Hp : existsb (fun p => String.prefix p
                          (t +:+ "-" +:+ e +:+ "-" +:+ rest))
                 ["ios-"; "android-"; "shared-"; "mob-"] = true).
  { apply (existsb_intro _ _ _ (t +:+ "-")).
    - cbn [In] in Ht |- *. destruct Ht as [<-|[<-|[<-|[]]]]; cbn; tauto.
    - cbn [In] in Ht, He.
      destruct Ht as [<-|[<-|[<-|[]]]]; destruct He as [<-|[<-|[<-|[]]]];
        match goal with
        | |- String.prefix ?p (?t +:+ "-" +:+ ?e +:+ "-" +:+ rest) = true =>
            apply (prefix_app_r p (t +:+ "-" +:+ e +:+ "-") rest); reflexivity
        end. }
  assert (Hc : existsb (fun x => contains x
                          (t +:+ "-" +:+ e +:+ "-" +:+ rest))
                 ["-dev-"; "-prod-"; "-global-"] = true).
  { apply (existsb_intro _ _ _ ("-" +:+ e +:+ "-")).
    - cbn [In] in He |- *. destruct He as [<-|[<-|[<-|[]]]]; cbn; tauto.
    - cbn [In] in Ht, He.
      destruct Ht as [<-|[<-|[<-|[]]]]; destruct He as [<-|[<-|[<-|[]]]];
        match goal with
        | |- contains ?x (?t +:+ "-" +:+ ?e +:+ "-" +:+ rest) = true =>
            apply (contains_app_r x (t +:+ "-" +:+ e +:+ "-") rest); reflexivity
        end. }
  rewrite Hp, Hc. reflexivity.
Qed.

Lemma security_group_name_is_bucket_name_witness :
  scan CKV_EIGHTPOINT_001 (record [("bucket", VList [VStr "android-prod-rds-db"])])
  = Ret PASSED.
Proof.
  apply (security_group_name_is_bucket_name
           (record [("name", VStr "android-prod-rds-db")])
           (record [("bucket", VList [VStr "android-prod-rds-db"])])
           "android-prod-rds-db");
    vm_compute; reflexivity.
Defined.

(** Property X9.  The naming checks anchor nothing at the end of a name: appending any
    suffix to a name that check 001, 003 or 004 accepts gives a name the
    same check accepts. *)
Theorem accepted_names_extend
    (conf conf' : gmap string value) (key n suffix : string) (c : check_id) :
  (c = CKV_EIGHTPOINT_001 /\ key = "bucket")
  \/ ((c = CKV_EIGHTPOINT_003 \/ c = CKV_EIGHTPOINT_004) /\ key = "name") ->
  spec_get conf key = Some (VStr n) ->
  spec_get conf' key = Some (VStr (n +:+ suffix)) ->
  scan c conf = Ret PASSED ->
  scan c conf' = Ret PASSED.
Proof.
  intros Hc H1 H2 P. apply spec_get_str in H1, H2.
  destruct Hc as [[-> ->]|[[-> | ->] ->]].
  - rewrite (s3_on_name _ _ H1) in P. rewrite (s3_on_name _ _ H2).
    destruct (existsb _ _) eqn:Ep in P; [|discriminate].
    destruct (existsb _ _) eqn:Ee in P; [|discriminate].
    rewrite (existsb_weaken _ _ _ _ (fun p => prefix_app_r p n suffix) Ep),
      (existsb_weaken _ _ _ _ (fun e => contains_app_r e n suffix) Ee).
    reflexivity.
  - rewrite (security_group_on_name _ _ H1) in P.
    rewrite (security_group_on_name _ _ H2).
    injection P as P. f_equal. apply naming_rule_extend, P.
  - rewrite (iam_role_on_name _ _ H1) in P. rewrite (iam_role_on_name _ _ H2).
    injection P as P. f_equal.
    rewrite naming_rule_of_lower in P |- *. rewrite lower_app.
    apply naming_rule_extend, P.
Qed.

Lemma accepted_names_extend_witness :
  scan CKV_EIGHTPOINT_004
    (record [("name", VStr "iOS-Dev-EKS-NodeGroup/../x y")])
  = Ret PASSED.
Proof.
  apply (accepted_names_extend
           (record [("name", VStr "iOS-Dev-EKS-NodeGroup")])
           (record [("name", VStr "iOS-Dev-EKS-NodeGroup/../x y")])
           "name" "iOS-Dev-EKS-NodeGroup" "/../x y" CKV_EIGHTPOINT_004);
    [right; split; [right|]; reflexivity| vm_compute; reflexivity ..].
Defined.


(** Property X4.  Check 001 accepts a record exactly when its bucket, bare or first in a
    sequence, is a string that starts with one of the four prefixes and
    holds one of the three environment tokens; a bucket that is no string
    is never accepted. *)
Theorem s3_accepted_records (conf : gmap string value) :
  scan CKV_EIGHTPOINT_001 conf = Ret PASSED <->
  exists name,
    spec_get conf "bucket" = Some (VStr name)
    /\ (exists p, In p ["ios-"; "android-"; "shared-"; "mob-"]
                  /\ String.prefix p name = true)
    /\ (exists e, In e ["-dev-"; "-prod-"; "-global-"]
                  /\ contains e name = true).
Proof.
  split.
  - intros H. destruct (s3_passed_string conf H) as [name Hn].
    exists name. split; [exact Hn|].
    rewrite (s3_on_name conf name (spec_get_str _ _ _ Hn)) in H.
    destruct (existsb _ _) eqn:Ep in H; [|discriminate].
    destruct (existsb _ _) eqn:Ee in H; [|discriminate].
    apply existsb_exists in Ep, Ee. auto.
  - intros (name & Hn & (p & Hp & Pp) & (e & He & Pe)).
    rewrite (s3_on_name conf name (spec_get_str _ _ _ Hn)).
    rewrite (existsb_intro _ (fun p => String.prefix p name) _ p Hp Pp),
      (existsb_intro _ (fun e => contains e name) _ e He Pe).
    reflexivity.
Qed.

Lemma s3_accepted_records_witness :
  scan CKV_EIGHTPOINT_001 (record [("bucket", VStr "ios-dev-")]) = Ret PASSED.
Proof.
  apply (proj2 (s3_accepted_records (record [("bucket", VStr "ios-dev-")]))).
  exists "ios-dev-". split; [vm_compute; reflexivity|].
  split; [exists "ios-"|exists "-dev-"]; (split; [cbn; tauto|reflexivity]).
Defined.

(** ** What a check reads *)

(** Property X1.  The result of a check depends on the record only through the
    attributes the check reads: two records that agree on them get the same
    result, whatever else they hold. *)
Theorem scan_reads_examined_attributes_only
    (c : check_id) (conf1 conf2 : gmap string value) :
  (forall k, In k (examined_attributes c) -> conf1 !! k = conf2 !! k) ->
  scan c conf1 = scan c conf2.
Proof.
  intros H. destruct c; cbn [examined_attributes In] in H; cbn [scan];
    unfold EightpointS3BucketNaming.scan_resource_conf,
      EightpointResourceTagging.scan_resource_conf,
      EightpointSecurityGroupNaming.scan_resource_conf,
      EightpointIAMRoleNaming.scan_resource_conf,
      EightpointKMSKeyRotation.scan_resource_conf,
      EightpointKMSKeyRotation.description_of,
      EightpointRDSBackupRetention.scan_resource_conf,
      EightpointEKSEndpointAccess.scan_resource_conf,
      conf_get, conf_get_default;
    rewrite ?(H "bucket"), ?(H "name"), ?(H "tags"), ?(H "description"),
      ?(H "enable_key_rotation"), ?(H "backup_retention_period"),
      ?(H "vpc_config") by tauto;
    reflexivity.
Qed.

Lemma scan_reads_examined_attributes_only_witness :
  scan CKV_EIGHTPOINT_006
    (record [("backup_retention_period", VList [VInt 3]);
             ("name", VInt 9); ("vpc_config", VNone)])
  = scan CKV_EIGHTPOINT_006
      (record [("backup_retention_period", VList [VInt 3])]).
Proof.
  apply scan_reads_examined_attributes_only.
  intros k [<-|[<-|[]]]; vm_compute; reflexivity.
Defined.

(** Property X2.  Of a sequence-wrapped attribute that a check reads from
    the record, and of the two endpoint flags that check 007 reads from the
    vpc_config block, only the first element is read: the elements after it
    never change the result.  The CIDR attribute of that block is the one
    exception: check 007 searches the whole sequence, so a later element
    can turn PASSED into FAILED. *)
Theorem scan_reads_first_element_only :
  (forall (c : check_id) (key : string) (x : value) (l : list value)
          (conf : gmap string value),
      In key (examined_attributes c) ->
      scan c (<[key := VList (x :: l)]> conf)
      = scan c (<[key := VList [x]]> conf))
  /\ (forall (key : string) (x : value) (l rest : list value)
             (d conf : gmap string value),
         In key ["endpoint_private_access"; "endpoint_public_access"] ->
         scan CKV_EIGHTPOINT_007
           (<["vpc_config" :=
                VList (VDict (<[key := VList (x :: l)]> d) :: rest)]> conf)
         = scan CKV_EIGHTPOINT_007
             (<["vpc_config" :=
                  VList (VDict (<[key := VList [x]]> d) :: rest)]> conf))
  /\ (exists (x y : value) (d : gmap string value),
         scan CKV_EIGHTPOINT_007
           (<["vpc_config" :=
                VList [VDict (<["public_access_cidrs" := VList [x]]> d)]]> ∅)
         = Ret PASSED
         /\ scan CKV_EIGHTPOINT_007
              (<["vpc_config" :=
                   VList [VDict (<["public_access_cidrs" := VList [x; y]]> d)]]>
                 ∅)
            = Ret FAILED).
Proof.
  split; [|split].
  - intros c key x l conf Hk.
    destruct c; cbn [examined_attributes In] in Hk;
      repeat (destruct Hk as [<-|Hk]); try contradiction; cbn [scan];
      unfold EightpointS3BucketNaming.scan_resource_conf,
        EightpointResourceTagging.scan_resource_conf,
        EightpointSecurityGroupNaming.scan_resource_conf,
        EightpointIAMRoleNaming.scan_resource_conf,
        EightpointKMSKeyRotation.scan_resource_conf,
        EightpointKMSKeyRotation.description_of,
        EightpointRDSBackupRetention.scan_resource_conf,
        EightpointEKSEndpointAccess.scan_resource_conf,
        conf_get, conf_get_default;
      read_attribute; reflexivity.
  - intros key x l rest d conf Hk. cbn [In] in Hk. cbn [scan].
    unfold EightpointEKSEndpointAccess.scan_resource_conf, conf_get.
    read_attribute.
    cbn [truthy isinstance_list negb orb subscript0 dict_get
         mbind result_bind].
    destruct Hk as [<-|[<-|[]]]; read_attribute; reflexivity.
  - exists (VList [VStr "10.0.0.0/8"]), (VStr "0.0.0.0/0"),
      (<["endpoint_private_access" := VList [VBool true]]> ∅).
    split; vm_compute; reflexivity.
Qed.

Lemma scan_reads_first_element_only_witness :
  scan CKV_EIGHTPOINT_007
    (<["vpc_config" := VList [VDict ∅; VInt 1; VNone]]> ∅)
  = scan CKV_EIGHTPOINT_007 (<["vpc_config" := VList [VDict ∅]]> ∅)
  /\ scan CKV_EIGHTPOINT_007
       (<["vpc_config" :=
            VList [VDict (<["endpoint_private_access" :=
                              VList [VBool true; VBool false]]> ∅)]]> ∅)
     = scan CKV_EIGHTPOINT_007
         (<["vpc_config" :=
              VList [VDict (<["endpoint_private_access" :=
                                VList [VBool true]]> ∅)]]> ∅).
Proof.
  split.
  - apply (proj1 scan_reads_first_element_only). cbn. tauto.
  - apply (proj1 (proj2 scan_reads_first_element_only)). cbn. tauto.
Defined.

(** Property X3.  A record that holds none of the attributes a check reads fails the
    check, except for check 005, which takes such a record for a key outside
    production and passes it. *)
Theorem scan_without_examined_attributes
    (c : check_id) (conf : gmap string value) :
  (forall k, In k (examined_attributes c) -> attribute conf k = Absent) ->
  scan c conf =
  Ret (match c with CKV_EIGHTPOINT_005 => PASSED | _ => FAILED end).
Proof.
  intros H.
  assert (Hl : forall k, In k (examined_attributes c) ->
                 conf !! k = None \/ conf !! k = Some VNone
                 \/ conf !! k = Some (VList [])).
  { intros k Hk. apply attribute_absent, H, Hk. }
  clear H.
  destruct c; cbn [examined_attributes In] in Hl; cbn [scan];
    unfold EightpointS3BucketNaming.scan_resource_conf,
      EightpointResourceTagging.scan_resource_conf,
      EightpointSecurityGroupNaming.scan_resource_conf,
      EightpointIAMRoleNaming.scan_resource_conf,
      EightpointKMSKeyRotation.scan_resource_conf,
      EightpointKMSKeyRotation.description_of,
      EightpointRDSBackupRetention.scan_resource_conf,
      EightpointEKSEndpointAccess.scan_resource_conf,
      conf_get, conf_get_default.
  - destruct (Hl "bucket") as [->|[->| ->]]; auto; reflexivity.
  - destruct (Hl "tags") as [->|[->| ->]]; auto; reflexivity.
  - destruct (Hl "name") as [->|[->| ->]]; auto; reflexivity.
  - destruct (Hl "name") as [->|[->| ->]]; auto; reflexivity.
  - destruct (Hl "tags") as [->|[->| ->]]; auto;
      destruct (Hl "description") as [->|[->| ->]]; auto; reflexivity.
  - destruct (Hl "tags") as [->|[->| ->]]; auto;
      destruct (Hl "backup_retention_period") as [->|[->| ->]]; auto;
      reflexivity.
  - destruct (Hl "vpc_config") as [->|[->| ->]]; auto; reflexivity.
Qed.

Lemma scan_without_examined_attributes_witness :
  scan CKV_EIGHTPOINT_005 (record [("tags", VList []); ("name", VStr "x")])
  = Ret PASSED.
Proof.
  apply (scan_without_examined_attributes CKV_EIGHTPOINT_005).
  intros k [<-|[<-|[<-|[]]]]; vm_compute; reflexivity.
Defined.


(** ** Check 002 on arbitrary records *)

Lemma is_Some_lookup (d : gmap string value) (k : string) :
  bool_decide (is_Some (d !! k)) = true -> exists v, d !! k = Some v.
Proof. intros H. apply bool_decide_eq_true_1 in H as [v Hv]. eauto. Qed.

Lemma str_lower_ret (v : value) (s : string) :
  str_lower v = Ret s -> exists s0, v = VStr s0 /\ s = lower s0.
Proof.
  destruct v as [| | |s0| |]; cbn; intros H; try discriminate.
  injection H as <-. eauto.
Qed.

(** What a record that check 002 accepts must hold. *)
Lemma tagging_passed_inv (conf : gmap string value) :
  scan CKV_EIGHTPOINT_002 conf = Ret PASSED ->
  exists (d : gmap string value) (team env managed : string) (project : value),
    attribute conf "tags" = Wrapped (VDict d)
    /\ d !! "Team" = Some (VStr team)
    /\ d !! "Environment" = Some (VStr env)
    /\ d !! "Project" = Some project
    /\ d !! "ManagedBy" = Some (VStr managed)
    /\ In (lower team) ["ios"; "android"; "shared"]
    /\ In (lower env) ["dev"; "prod"; "global"; "test"]
    /\ lower managed = "terraform".
Proof.
  intros H.
  destruct (attribute conf "tags") as [|v|v] eqn:A.
  + exfalso. apply attribute_absent in A. revert H. cbn [scan].
    unfold EightpointResourceTagging.scan_resource_conf, conf_get.
    destruct A as [-> | [-> | ->]]; discriminate.
  + destruct v as [|b|z|s|vl|d];
      try (exfalso; apply attribute_wrapped in A as [l E];
           rewrite (tagging_on_non_mapping _ _ _ E) in H by discriminate;
           destruct (EightpointResourceTagging.has_required_tags _ _)
             as [[|]|]; discriminate H).
    pose proof A as A'. apply attribute_wrapped in A' as [l E].
    rewrite (tagging_on_mapping _ _ _ E) in H.
    destruct (forallb _ _) eqn:F in H; [|discriminate].
    cbn [forallb] in F. rewrite !andb_true_iff in F.
    destruct F as (Ft & Fe & Fp & Fm & _).
    apply is_Some_lookup in Ft as [vt Ht], Fe as [ve He],
      Fp as [vp Hp], Fm as [vm Hm].
    rewrite Ht, He, Hm in H. cbn [default from_option id] in H.
    destruct (str_lower vt) as [t|] eqn:Lt; [|discriminate].
    cbn [mbind result_bind] in H.
    destruct (in_strs t _) eqn:It in H; [|discriminate]. cbn [negb] in H.
    destruct (str_lower ve) as [e|] eqn:Le; [|discriminate].
    cbn [mbind result_bind] in H.
    destruct (in_strs e _) eqn:Ie in H; [|discriminate]. cbn [negb] in H.
    destruct (str_lower vm) as [m|] eqn:Lm; [|discriminate].
    cbn [mbind result_bind] in H.
    destruct (String.eqb m "terraform") eqn:Em; [|discriminate].
    apply str_lower_ret in Lt as (t0 & -> & ->), Le as (e0 & -> & ->),
      Lm as (m0 & -> & ->).
    apply in_strs_In in It, Ie. apply String.eqb_eq in Em.
    exists d, t0, e0, m0, vp. auto 10.
  + exfalso. apply attribute_bare in A as (E & L & _). revert H. cbn [scan].
    unfold EightpointResourceTagging.scan_resource_conf, conf_get.
    rewrite E. cbn [default from_option id]. rewrite L, orb_true_r.
    discriminate.
Qed.

(** Property X10.  Check 002 accepts a record exactly when its tags are a sequence whose
    first element is a mapping that holds all four required keys, with
    string values for Team, Environment and ManagedBy that lower-case to an
    allowed team, an allowed environment and terraform; nothing else is ever
    accepted. *)
Theorem tagging_accepted_records (conf : gmap string value) :
  scan CKV_EIGHTPOINT_002 conf = Ret PASSED <->
  exists (d : gmap string value) (team env managed : string) (project : value),
    attribute conf "tags" = Wrapped (VDict d)
    /\ d !! "Team" = Some (VStr team)
    /\ d !! "Environment" = Some (VStr env)
    /\ d !! "Project" = Some project
    /\ d !! "ManagedBy" = Some (VStr managed)
    /\ In (lower team) ["ios"; "android"; "shared"]
    /\ In (lower env) ["dev"; "prod"; "global"; "test"]
    /\ lower managed = "terraform".
Proof.
  split.
  - apply tagging_passed_inv.
  - intros (d & t & e & m & p & A & Ht & He & Hp & Hm & It & Ie & Em).
    apply attribute_wrapped in A as [l E].
    rewrite (tagging_on_mapping _ _ _ E). cbn [forallb].
    rewrite Ht, He, Hp, Hm. rewrite !bool_decide_eq_true_2 by eauto.
    cbn [andb default from_option id str_lower mbind result_bind].
    apply in_strs_In in It, Ie. rewrite It, Ie, Em. reflexivity.
Qed.

Lemma tagging_accepted_records_witness :
  scan CKV_EIGHTPOINT_002
    (record [("tags", VList [tag_map [("Team", "Android"); ("Environment", "Global");
                                      ("Project", "p");
                                      ("ManagedBy", "TERRAFORM")]])])
  = Ret PASSED.
Proof.
  apply (proj2 (tagging_accepted_records
    (record [("tags", VList [tag_map [("Team", "Android"); ("Environment", "Global");
                                      ("Project", "p");
                                      ("ManagedBy", "TERRAFORM")]])]))).
  exists (list_to_map [("Team", VStr "Android"); ("Environment", VStr "Global");
                       ("Project", VStr "p"); ("ManagedBy", VStr "TERRAFORM")]),
    "Android", "Global", "TERRAFORM", (VStr "p").
  repeat split; try (vm_compute; reflexivity); cbn; tauto.
Defined.

(** Property X11.  Tag values count up to case, and the value of Project not at all:
    replacing the Team, Environment or ManagedBy value by a string with the
    same lower-casing, or the Project value by any value, leaves the result
    of check 002 unchanged. *)
Theorem tagging_values_up_to_case
    (conf : gmap string value) (d : gmap string value) (rest : list value) :
  (forall (k s s' : string),
      In k ["Team"; "Environment"; "ManagedBy"] ->
      d !! k = Some (VStr s) ->
      lower s' = lower s ->
      scan CKV_EIGHTPOINT_002
        (<["tags" := VList (VDict (<[k := VStr s']> d) :: rest)]> conf)
      = scan CKV_EIGHTPOINT_002 (<["tags" := VList (VDict d :: rest)]> conf))
  /\ (forall v v' : value,
         d !! "Project" = Some v ->
         scan CKV_EIGHTPOINT_002
           (<["tags" := VList (VDict (<["Project" := v']> d) :: rest)]> conf)
         = scan CKV_EIGHTPOINT_002 (<["tags" := VList (VDict d :: rest)]> conf)).
Proof.
  split.
  - intros k s s' Hk Hs El.
    rewrite (tagging_on_mapping _ (<[k := VStr s']> d) rest)
      by apply lookup_insert_eq.
    rewrite (tagging_on_mapping _ d rest) by apply lookup_insert_eq.
    cbn [forallb In] in Hk |- *.
    destruct Hk as [<-|[<-|[<-|[]]]];
      rewrite ?lookup_insert_eq;
      rewrite ?lookup_insert_ne by discriminate;
      rewrite Hs; rewrite !(bool_decide_eq_true_2 (is_Some (Some _))) by eauto;
      cbn [default from_option id str_lower]; rewrite El; reflexivity.
  - intros v v' Hv.
    rewrite (tagging_on_mapping _ (<["Project" := v']> d) rest)
      by apply lookup_insert_eq.
    rewrite (tagging_on_mapping _ d rest) by apply lookup_insert_eq.
    cbn [forallb].
    rewrite ?lookup_insert_eq; rewrite ?lookup_insert_ne by discriminate.
    rewrite Hv. rewrite !(bool_decide_eq_true_2 (is_Some (Some _))) by eauto.
    reflexivity.
Qed.

Lemma tagging_values_up_to_case_witness :
  scan CKV_EIGHTPOINT_002
    (<["tags" := VList [VDict (<["Team" := VStr "IOS"]>
                                 (<["Team" := VStr "ios"]> ∅))]]> ∅)
  = scan CKV_EIGHTPOINT_002
      (<["tags" := VList [VDict (<["Team" := VStr "ios"]> ∅)]]> ∅).
Proof.
  apply (proj1 (tagging_values_up_to_case ∅ (<["Team" := VStr "ios"]> ∅) [])
           "Team" "ios" "IOS");
    [cbn; tauto|reflexivity|reflexivity].
Defined.


(** ** Check 006 on numbers, booleans and everything else *)


(** The check once the environment is read, on a sequence-wrapped
    retention. *)
Lemma rds_on_retention (conf : gmap string value) (env : string)
    (v : value) (l : list value) :
  environment_tag conf = Some env ->
  conf !! "backup_retention_period" = Some (VList (v :: l)) ->
  scan CKV_EIGHTPOINT_006 conf =
  (ok ← ge_int v (if String.eqb env "prod" || String.eqb env "production"
                  then 7 else 1);
   if (ok : bool) then Ret PASSED else Ret FAILED).
Proof.
  intros He E. apply environment_of_tags in He as (d & Ht & Henv).
  cbn [scan]. unfold EightpointRDSBackupRetention.scan_resource_conf.
  rewrite Ht. cbn [mbind result_bind] in Henv |- *.
  destruct (dict_get (VDict d) "Environment" (VStr "")) as [e|]; [|discriminate].
  cbn [mbind result_bind] in Henv |- *. rewrite Henv.
  cbn [mbind result_bind]. unfold conf_get. rewrite E.
  cbn [default from_option id truthy isinstance_list andb subscript0
       mbind result_bind].
  destruct (String.eqb env "prod" || String.eqb env "production"); reflexivity.
Qed.



(** Property X13.  Check 006 is monotone: a record it accepts stays accepted when the
    retention is raised, and a retention accepted under the environment
    prod is accepted under every environment. *)
Theorem rds_retention_monotone
    (conf conf' : gmap string value) (env env' : string) (z z' : Z)
    (l l' : list value) :
  environment_tag conf = Some env ->
  environment_tag conf' = Some env' ->
  conf !! "backup_retention_period" = Some (VList (VInt z :: l)) ->
  conf' !! "backup_retention_period" = Some (VList (VInt z' :: l')) ->
  z <= z' ->
  env' = env \/ env = "prod" ->
  scan CKV_EIGHTPOINT_006 conf = Ret PASSED ->
  scan CKV_EIGHTPOINT_006 conf' = Ret PASSED.
Proof.
  intros He He' E E' Hz Henv.
  rewrite (rds_on_retention _ _ _ _ He E), (rds_on_retention _ _ _ _ He' E').
  cbn [ge_int mbind result_bind].
  destruct Henv as [-> | ->].
  - destruct (_ || _);
      match goal with
      | |- (if (?a <=? z) then _ else _) = _ -> _ =>
          destruct (a <=? z) eqn:L; [|discriminate];
          apply Z.leb_le in L; intros _;
          assert ((a <=? z') = true) as -> by (apply Z.leb_le; lia)
      end; reflexivity.
  - cbn [String.eqb Ascii.eqb Bool.eqb orb].
    destruct (7 <=? z) eqn:L; [|discriminate]. apply Z.leb_le in L.
    intros _. destruct (_ || _);
      match goal with
      | |- (if (?a <=? z') then _ else _) = _ =>
          assert ((a <=? z') = true) as -> by (apply Z.leb_le; lia)
      end; reflexivity.
Qed.

Lemma rds_retention_monotone_witness :
  scan CKV_EIGHTPOINT_006
    (record [("tags", VList [tag_map [("Environment", "dev")]]);
             ("backup_retention_period", VList [VInt 9])])
  = Ret PASSED.
Proof.
  apply (rds_retention_monotone
           (record [("tags", VList [tag_map [("Environment", "PROD")]]);
                    ("backup_retention_period", VList [VInt 7])])
           (record [("tags", VList [tag_map [("Environment", "dev")]]);
                    ("backup_retention_period", VList [VInt 9])])
           "prod" "dev" 7 9 [] []);
    try (vm_compute; reflexivity); [lia|right; reflexivity].
Defined.

(** Property X14.  On a record that check 002 accepts, the environment is one of dev,
    prod, global and test, so check 006 asks for seven days exactly when the
    lower-cased Environment tag is prod: its second spelling, production,
    cannot occur. *)
Theorem rds_threshold_on_tagged_records
    (conf : gmap string value) (z : Z) (l : list value) :
  scan CKV_EIGHTPOINT_002 conf = Ret PASSED ->
  conf !! "backup_retention_period" = Some (VList (VInt z :: l)) ->
  exists env,
    environment_tag conf = Some env
    /\ In env ["dev"; "prod"; "global"; "test"]
    /\ scan CKV_EIGHTPOINT_006 conf =
       Ret (if (if String.eqb env "prod" then 7 else 1) <=? z
            then PASSED else FAILED).
Proof.
  intros P E.
  apply tagging_passed_inv in P
    as (d & t & e & m & p & A & _ & He & _ & _ & _ & Ie & _).
  assert (Henv : environment_tag conf = Some (lower e)).
  { unfold environment_tag. rewrite A, He. reflexivity. }
  exists (lower e). split; [exact Henv|]. split; [exact Ie|].
  rewrite (rds_on_retention _ _ _ _ Henv E). cbn [ge_int mbind result_bind].
  cbn [In] in Ie. destruct Ie as [<-|[<-|[<-|[<-|[]]]]];
    cbn [String.eqb Ascii.eqb Bool.eqb orb];
    match goal with |- context [(?a <=? z)] => destruct (a <=? z) end;
    reflexivity.
Qed.

Lemma rds_threshold_on_tagged_records_witness :
  exists env,
    environment_tag
      (record [("tags", VList [tag_map [("Team", "ios"); ("Environment", "Test");
                                        ("Project", "x");
                                        ("ManagedBy", "terraform")]]);
               ("backup_retention_period", VList [VInt 1])]) = Some env
    /\ In env ["dev"; "prod"; "global"; "test"]
    /\ scan CKV_EIGHTPOINT_006
         (record [("tags", VList [tag_map [("Team", "ios"); ("Environment", "Test");
                                           ("Project", "x");
                                           ("ManagedBy", "terraform")]]);
                  ("backup_retention_period", VList [VInt 1])])
       = Ret (if (if String.eqb env "prod" then 7 else 1) <=? 1
              then PASSED else FAILED).
Proof.
  apply (rds_threshold_on_tagged_records _ 1 []); vm_compute; reflexivity.
Defined.


(** ** Check 005: what makes a key a production key *)

Lemma contains_production (d : string) :
  contains "prod" d = false -> contains "production" d = false.
Proof.
  intros C. destruct (contains "production" d) eqn:C'; [|reflexivity].
  rewrite (contains_weaken "prod" "uction" d C') in C. discriminate.
Qed.

(** Property X15.  The third test of [is_prod], for the word production, never decides:
    a description that holds production holds prod, so the expression is the
    tag test followed by the test for prod alone. *)
Theorem kms_production_test_is_subsumed (tags_dict description : value) :
  EightpointKMSKeyRotation.is_prod tags_dict description =
  (env ← dict_get tags_dict "Environment" (VStr "");
   env_value ← str_lower env;
   if String.eqb env_value "prod" then Ret true
   else d ← str_lower description; Ret (contains "prod" d)).
Proof.
  unfold EightpointKMSKeyRotation.is_prod.
  destruct (dict_get tags_dict "Environment" (VStr "")) as [e|]; [|reflexivity].
  cbn [mbind result_bind].
  destruct (str_lower e) as [env|]; [|reflexivity].
  cbn [mbind result_bind].
  destruct (String.eqb env "prod"); [reflexivity|].
  destruct (str_lower description) as [d|]; [|reflexivity].
  cbn [mbind result_bind].
  destruct (contains "prod" d) eqn:C; [reflexivity|].
  rewrite (contains_production d C). reflexivity.
Qed.

(** The check once environment and description are read. *)
Lemma kms_on_text (conf : gmap string value) (env desc : string) :
  environment_tag conf = Some env ->
  description_text conf = Some desc ->
  scan CKV_EIGHTPOINT_005 conf =
  if String.eqb env "prod" || contains "prod" (lower desc)
  then
    if truthy (conf_get conf "enable_key_rotation")
       && isinstance_list (conf_get conf "enable_key_rotation")
    then r0 ← subscript0 (conf_get conf "enable_key_rotation");
         if truthy r0 then Ret PASSED else Ret FAILED
    else Ret FAILED
  else Ret PASSED.
Proof.
  intros He Hd. apply environment_of_tags in He as (d & Ht & Henv).
  apply description_of_text in Hd.
  cbn [scan]. unfold EightpointKMSKeyRotation.scan_resource_conf.
  rewrite Ht. cbn [mbind result_bind]. rewrite Hd. cbn [mbind result_bind].
  unfold EightpointKMSKeyRotation.is_prod.
  cbn [mbind result_bind] in Henv |- *.
  destruct (dict_get (VDict d) "Environment" (VStr "")) as [e|]; [|discriminate].
  cbn [mbind result_bind] in Henv |- *. rewrite Henv.
  cbn [mbind result_bind str_lower].
  destruct (String.eqb env "prod"); [reflexivity|].
  cbn [mbind result_bind orb].
  destruct (contains "prod" (lower desc)) eqn:C; [reflexivity|].
  cbn [mbind result_bind]. rewrite (contains_production _ C). reflexivity.
Qed.

(** Property X16.  Checks 005 and 006 read the Environment tag differently: a tag that
    lower-cases to production makes the record production for check 006,
    which then asks for seven days, but not for check 005, which passes the
    key without rotation unless its description holds prod. *)
Theorem production_tag_in_kms_and_rds
    (conf : gmap string value) (desc : string) (z : Z) (l : list value) :
  environment_tag conf = Some "production" ->
  description_text conf = Some desc ->
  contains "prod" (lower desc) = false ->
  conf !! "backup_retention_period" = Some (VList (VInt z :: l)) ->
  scan CKV_EIGHTPOINT_005 conf = Ret PASSED
  /\ scan CKV_EIGHTPOINT_006 conf = Ret (if 7 <=? z then PASSED else FAILED).
Proof.
  intros He Hd Hc E. split.
  - rewrite (kms_on_text _ _ _ He Hd), Hc. reflexivity.
  - rewrite (rds_on_retention _ _ _ _ He E).
    cbn [String.eqb Ascii.eqb Bool.eqb orb ge_int mbind result_bind].
    destruct (7 <=? z); reflexivity.
Qed.

Lemma production_tag_in_kms_and_rds_witness :
  scan CKV_EIGHTPOINT_005
    (record [("tags", VList [tag_map [("Environment", "Production")]]);
             ("description", VList [VStr "signing key"]);
             ("backup_retention_period", VList [VInt 3])])
  = Ret PASSED
  /\ scan CKV_EIGHTPOINT_006
       (record [("tags", VList [tag_map [("Environment", "Production")]]);
                ("description", VList [VStr "signing key"]);
                ("backup_retention_period", VList [VInt 3])])
     = Ret (if 7 <=? 3 then PASSED else FAILED).
Proof.
  apply (production_tag_in_kms_and_rds _ "signing key" 3 []);
    vm_compute; reflexivity.
Defined.

(** ** Check 007 on arbitrary records *)

(** Property X17.  Check 007 returns PASSED exactly when vpc_config is a
    sequence headed by a mapping in which endpoint_private_access is present
    with a truthy first item and either endpoint_public_access is present
    with a falsy first item, or endpoint_public_access is missing or has a
    truthy first item and public_access_cidrs is present, truthy, and fails
    the test ["0.0.0.0/0" in] on the value as the mapping holds it.  So
    nothing is accepted through a default; what counts for the flags is
    truthiness, not the boolean true, and the CIDR value is not unwrapped
    before it is searched. *)
Theorem eks_accepted_records (conf : gmap string value) :
  scan CKV_EIGHTPOINT_007 conf = Ret PASSED <->
  exists (d : gmap string value) (private p : value),
    attribute conf "vpc_config" = Wrapped (VDict d)
    /\ d !! "endpoint_private_access" = Some private
    /\ subscript0 private = Ret p /\ truthy p = true
    /\ ((exists public q : value,
            d !! "endpoint_public_access" = Some public
            /\ subscript0 public = Ret q /\ truthy q = false)
        \/ ((d !! "endpoint_public_access" = None
             \/ exists public q : value,
                  d !! "endpoint_public_access" = Some public
                  /\ subscript0 public = Ret q /\ truthy q = true)
            /\ exists cidrs : value,
                 d !! "public_access_cidrs" = Some cidrs
                 /\ truthy cidrs = true
                 /\ str_in "0.0.0.0/0" cidrs = Ret false)).
Proof.
  split.
  - cbn [scan]. unfold EightpointEKSEndpointAccess.scan_resource_conf,
      conf_get, attribute.
    destruct (conf !! "vpc_config") as [[| | | |[|x l]|]|];
      cbn [default from_option id truthy isinstance_list negb orb];
      rewrite ?orb_true_r; try discriminate.
    cbn [subscript0 mbind result_bind].
    destruct x as [| | | | |d]; try discriminate.
    cbn [dict_get mbind result_bind].
    destruct (d !! "endpoint_private_access") as [pv|] eqn:Epv;
      [|discriminate].
    cbn [default from_option id].
    destruct (subscript0 pv) as [p|] eqn:Sp; [|discriminate].
    cbn [mbind result_bind].
    destruct (truthy p) eqn:Tp; [|discriminate]. cbn [negb].
    intros H. exists d, pv, p. repeat split; try assumption.
    destruct (d !! "endpoint_public_access") as [pb|] eqn:Epb.
    + cbn [default from_option id] in H.
      destruct (subscript0 pb) as [q|] eqn:Sq; [|discriminate].
      cbn [mbind result_bind] in H.
      destruct (truthy q) eqn:Tq; [|left; eauto].
      right. split; [right; eauto|].
      destruct (d !! "public_access_cidrs") as [cv|]; [|discriminate].
      cbn [default from_option id] in H.
      destruct (truthy cv) eqn:Tc; [|discriminate]. cbn [negb] in H.
      destruct (str_in "0.0.0.0/0" cv) as [[|]|] eqn:Sc; try discriminate.
      eauto.
    + right. split; [left; reflexivity|].
      cbn [default from_option id subscript0 mbind result_bind truthy] in H.
      destruct (d !! "public_access_cidrs") as [cv|]; [|discriminate].
      cbn [default from_option id] in H.
      destruct (truthy cv) eqn:Tc; [|discriminate]. cbn [negb] in H.
      destruct (str_in "0.0.0.0/0" cv) as [[|]|] eqn:Sc; try discriminate.
      eauto.
  - intros (d & pv & p & A & Epv & Sp & Tp & Hpub).
    apply attribute_wrapped in A as [l E]. cbn [scan].
    unfold EightpointEKSEndpointAccess.scan_resource_conf, conf_get.
    rewrite E.
    cbn [default from_option id truthy isinstance_list negb orb subscript0
         dict_get mbind result_bind].
    rewrite Epv. cbn [default from_option id]. rewrite Sp.
    cbn [mbind result_bind]. rewrite Tp. cbn [negb].
    destruct Hpub as [(pb & q & Epb & Sq & Tq)|(Hp & cv & Ec & Tc & Sc)].
    + rewrite Epb. cbn [default from_option id]. rewrite Sq.
      cbn [mbind result_bind]. rewrite Tq. reflexivity.
    + destruct Hp as [Epb|(pb & q & Epb & Sq & Tq)]; rewrite Epb;
        cbn [default from_option id subscript0 mbind result_bind truthy];
        [|rewrite Sq; cbn [mbind result_bind]; rewrite Tq];
        rewrite Ec; cbn [default from_option id]; rewrite Tc; cbn [negb];
        rewrite Sc; reflexivity.
Qed.

Lemma eks_accepted_records_witness :
  scan CKV_EIGHTPOINT_007
    (record [("vpc_config",
              VList [VDict (list_to_map
                [("endpoint_private_access", VList [VStr "false"]);
                 ("public_access_cidrs", VList [VStr "10.0.0.0/8"])])])])
  = Ret PASSED.
Proof.
  apply (proj2 (eks_accepted_records
    (record [("vpc_config",
              VList [VDict (list_to_map
                [("endpoint_private_access", VList [VStr "false"]);
                 ("public_access_cidrs", VList [VStr "10.0.0.0/8"])])])]))).
  exists (list_to_map
            [("endpoint_private_access", VList [VStr "false"]);
             ("public_access_cidrs", VList [VStr "10.0.0.0/8"])]),
    (VList [VStr "false"]), (VStr "false").
  repeat split; try (vm_compute; reflexivity).
  right. split; [left; vm_compute; reflexivity|].
  exists (VList [VStr "10.0.0.0/8"]).
  repeat split; vm_compute; reflexivity.
Defined.

(** ** Registration *)

(** Property X18.  The seven checks register under seven different identifiers, and two
    different checks are registered for the same resource kind only when
    one of them is the tagging check 002. *)
Theorem checks_registered_apart :
  (forall c1 c2 : check_id, id_of c1 = id_of c2 -> c1 = c2)
  /\ (forall (kind : string) (c1 c2 : check_id),
         applies_to c1 kind = true -> applies_to c2 kind = true ->
         c1 <> c2 ->
         c1 = CKV_EIGHTPOINT_002 \/ c2 = CKV_EIGHTPOINT_002).
Proof.
  split.
  - intros c1 c2 H. destruct c1, c2; try reflexivity; discriminate H.
  - intros kind c1 c2 H1 H2 Hne. unfold applies_to in H1, H2.
    apply in_strs_In in H1, H2.
    destruct c1, c2; auto; try (contradiction Hne; reflexivity);
      cbn in H1, H2;
      repeat (destruct H1 as [<-|H1]); try contradiction;
      repeat (destruct H2 as [H2|H2]); try discriminate H2; contradiction.
Qed.

Lemma checks_registered_apart_witness :
  CKV_EIGHTPOINT_007 = CKV_EIGHTPOINT_002
  \/ CKV_EIGHTPOINT_002 = CKV_EIGHTPOINT_002.
Proof.
  apply (proj2 checks_registered_apart "aws_eks_cluster");
    [reflexivity|reflexivity|discriminate].
Defined.


(** ** The names check 004 accepts *)

(** Property X6.  Check 004 accepts a record exactly when its name, bare or first in a
    sequence, is a string whose lower-casing has the form
    team-environment-rest with a hyphen in rest; records with any other
    value in name are never accepted. *)
Theorem iam_role_accepted_names (conf : gmap string value) :
  scan CKV_EIGHTPOINT_004 conf = Ret PASSED <->
  exists name t e rest,
    In t ["ios"; "android"; "shared"] /\ In e ["dev"; "prod"; "global"]
    /\ contains "-" rest = true
    /\ spec_get conf "name" = Some (VStr name)
    /\ lower name = t +:+ "-" +:+ e +:+ "-" +:+ rest.
Proof.
  split.
  - intros H. destruct (iam_role_passed_string conf H) as [name Hn].
    rewrite (iam_role_on_name conf name (spec_get_str _ _ _ Hn)) in H.
    injection H as H. rewrite naming_rule_of_lower in H.
    apply naming_rule_language in H as (t & e & rest & Ht & He & Hc & El).
    exists name, t, e, rest. auto.
  - intros (name & t & e & rest & Ht & He & Hc & Hn & El).
    rewrite (iam_role_on_name conf _ (spec_get_str _ _ _ Hn)).
    f_equal. rewrite naming_rule_of_lower.
    apply naming_rule_language. exists t, e, rest. auto.
Qed.

Lemma iam_role_accepted_names_witness :
  scan CKV_EIGHTPOINT_004 (record [("name", VList [VStr "Shared-PROD-a-b"])])
  = Ret PASSED.
Proof.
  apply (proj2 (iam_role_accepted_names
                  (record [("name", VList [VStr "Shared-PROD-a-b"])]))).
  exists "Shared-PROD-a-b", "shared", "prod", "a-b".
  repeat split; try (vm_compute; reflexivity); cbn; tauto.
Defined.
